(** * The serialized module format (lib/Serialization/ModuleFormat.h)

    A shallow embedding of the constants, enumerations, record layouts and
    helper functions of the serialized module format, and the properties of
    the format that follow from them. *)

From Stdlib Require Import ZArith List Bool String Lia.
Import ListNotations.
Open Scope Z_scope.

(** ** C++ enumerations

    An [enum] is kept as the source writes it: the enumerators in source order,
    each with the initialiser it has there, if any.  The value of an enumerator
    is then computed by the language rule: an initialiser gives the value, an
    enumerator without one is its predecessor plus one, and the first one
    defaults to zero. *)

Inductive Initializer : Type :=
| Implicit
| Explicit (v : Z).

Class CEnum (A : Type) : Type := {
  enum_eqb : A -> A -> bool;
  enumerators : list (A * Initializer)
}.

Fixpoint number {A : Type} (next : Z) (es : list (A * Initializer)) : list (A * Z) :=
  match es with
  | [] => []
  | (a, Explicit v) :: es' => (a, v) :: number (v + 1) es'
  | (a, Implicit) :: es' => (a, next) :: number (next + 1) es'
  end.

Fixpoint assoc {A : Type} (eqb : A -> A -> bool) (a : A) (l : list (A * Z)) : option Z :=
  match l with
  | [] => None
  | (b, v) :: l' => if eqb a b then Some v else assoc eqb a l'
  end.

Definition enum_table {A : Type} `{CEnum A} : list (A * Z) :=
  number 0 enumerators.

Definition enum_values {A : Type} `{CEnum A} : list Z :=
  map snd enum_table.

Definition enum_lookup {A : Type} `{CEnum A} (a : A) : option Z :=
  assoc enum_eqb a enum_table.

(** The integer an enumerator converts to. *)
Definition enum_value {A : Type} `{CEnum A} (a : A) : Z :=
  match enum_lookup a with
  | Some v => v
  | None => 0
  end.

(** The enumerator that has the value [v], if any: a lookup in the table of
    the enumeration. *)
Definition enum_of_value {A : Type} `{CEnum A} (v : Z) : option A :=
  match find (fun p => snd p =? v) enum_table with
  | Some p => Some (fst p)
  | None => None
  end.

Definition enum_max {A : Type} `{CEnum A} : Z :=
  fold_right Z.max 0 enum_values.

(** [uint8_t], the underlying type of most enumerations of the format. *)
Definition uint8_t_bits : Z := 8.

Definition fits_unsigned (bits v : Z) : bool :=
  (0 <=? v) && (v <? 2 ^ bits).

Definition fits_underlying {A : Type} `{CEnum A} (bits : Z) : bool :=
  forallb (fits_unsigned bits) enum_values.

(** Consecutive integers [lo, lo + 1, ..., lo + n - 1]. *)
Fixpoint zrange (lo : Z) (n : nat) : list Z :=
  match n with
  | O => []
  | S n' => lo :: zrange (lo + 1) n'
  end.

(** ** What the header takes from other headers *)

(** Modelled from the spec: [Fixnum<Bits>] of swift/Basic/Fixnum.h, which is
    not among these sources; an unsigned integer of [Bits] bits (section 3:
    an opaque 31-bit unsigned handle). *)
Definition Fixnum (Bits : Z) : Type :=
  { v : Z | fits_unsigned Bits v = true }.

Definition Fixnum_value {Bits : Z} (x : Fixnum Bits) : Z := proj1_sig x.

(** Modelled from the spec: the field kinds of
    swift/Serialization/BCRecordLayout.h, which is not among these sources
    (section 4.1: fixed-width fields, VBR fields, arrays of a single field
    type, blobs), and the two record layout templates built from them: one
    with a fixed record code, one whose record code is itself a field. *)
Inductive BCField : Type :=
| BCFixed (Width : Z)
| BCVBR (Width : Z)
| BCArray (Element : BCField)
| BCBlob.

Record BCRecordLayout : Type := {
  Code : Z;
  Fields : list BCField
}.

Record BCGenericRecordLayout : Type := {
  IDField : BCField;
  GenericFields : list BCField
}.

(** Modelled from the spec: emission of a fixed-width field (section 4.1:
    unsigned value in [0, 2^w), an encoding error if the value exceeds the
    width).  [None] is the encoding error; the bits are written least
    significant first. *)
Definition BCFixed_emit (Width v : Z) : option (list bool) :=
  if fits_unsigned Width v
  then Some (map (Z.testbit v) (zrange 0 (Z.to_nat Width)))
  else None.

Definition emit (f : BCField) (v : Z) : option (list bool) :=
  match f with
  | BCFixed w => BCFixed_emit w v
  | _ => None
  end.

(** [llvm_unreachable]: a function either returns or runs into a branch that
    is marked unreachable, with the message the branch carries. *)
Inductive Reach (A : Type) : Type :=
| Returns (a : A)
| llvm_unreachable (msg : string).

Arguments Returns {A} a.
Arguments llvm_unreachable {A} msg.

Definition reach_map {A B : Type} (f : A -> B) (r : Reach A) : Reach B :=
  match r with
  | Returns a => Returns (f a)
  | llvm_unreachable msg => llvm_unreachable msg
  end.

Definition returns {A : Type} (r : Reach A) : bool :=
  match r with
  | Returns _ => true
  | llvm_unreachable _ => false
  end.

(** Modelled from the spec: [DeclKind] and [Decl] of swift/AST/Decl.h, which
    is not among these sources.  The kinds are the declaration kinds the
    format has a record for (section 4.3: type alias, struct, class, union,
    protocol, function, variable, constructor, destructor, subscript,
    extension, pattern binding, operator declarations; and the generic type
    parameter, associated type and union element declarations whose records
    the header lists). *)
Module DeclKind.

Inductive t : Type :=
| Extension
| PatternBinding
| InfixOperator
| PrefixOperator
| PostfixOperator
| TypeAlias
| GenericTypeParam
| AssociatedType
| Union
| Struct
| Class
| Protocol
| Var
| Func
| UnionElement
| Subscript
| Constructor
| Destructor.

End DeclKind.

Record Decl : Type := {
  getKind : DeclKind.t
}.

Module serialization.

(** Magic number for serialized module files. *)
Definition SIGNATURE : list Z := [0xE2; 0x9C; 0xA8; 0x0E].

(** Serialized module format major version number. *)
Definition VERSION_MAJOR : Z := 1.

(** Serialized module format minor version number. *)
Definition VERSION_MINOR : Z := 0.

Definition DeclID : Type := Fixnum 31.
Definition DeclIDField : BCField := BCFixed 31.

(** TypeID must be the same as DeclID because it is stored in the same way. *)
Definition TypeID : Type := DeclID.
Definition TypeIDField : BCField := DeclIDField.

Definition IdentifierID : Type := Fixnum 31.
Definition IdentifierIDField : BCField := BCFixed 31.

Definition BitOffset : Type := Fixnum 31.
Definition BitOffsetField : BCField := BCFixed 31.

(** CharOffset must be the same as BitOffset because it is stored in the
    same way. *)
Definition CharOffset : Type := BitOffset.
Definition CharOffsetField : BCField := BitOffsetField.

Module AbstractCC.

Inductive t : Type :=
| C
| ObjCMethod
| Freestanding
| Method.

Scheme Equality for t.

#[global] Instance cenum : CEnum t := {|
  enum_eqb := t_beq;
  enumerators := [
    (C, Explicit 0);
    (ObjCMethod, Implicit);
    (Freestanding, Implicit);
    (Method, Implicit)
  ]
|}.

End AbstractCC.

Definition AbstractCCField : BCField := BCFixed 2.

Module XRefKind.

Inductive t : Type :=
| SwiftValue
| SwiftOperator
| SwiftGenericParameter.

Scheme Equality for t.

#[global] Instance cenum : CEnum t := {|
  enum_eqb := t_beq;
  enumerators := [
    (SwiftValue, Explicit 0);
    (SwiftOperator, Implicit);
    (SwiftGenericParameter, Implicit)
  ]
|}.

End XRefKind.

Definition XRefKindField : BCField := BCFixed 2.

Module OperatorKind.

Inductive t : Type :=
| Infix
| Prefix
| Postfix.

Scheme Equality for t.

#[global] Instance cenum : CEnum t := {|
  enum_eqb := t_beq;
  enumerators := [
    (Infix, Explicit 0);
    (Prefix, Implicit);
    (Postfix, Implicit)
  ]
|}.

End OperatorKind.

(** Translates an operator DeclKind to a Serialization fixity, whose values
    are guaranteed to be stable. *)
Definition getStableFixity (kind : DeclKind.t) : Reach OperatorKind.t :=
  match kind with
  | DeclKind.PrefixOperator => Returns OperatorKind.Prefix
  | DeclKind.PostfixOperator => Returns OperatorKind.Postfix
  | DeclKind.InfixOperator => Returns OperatorKind.Infix
  | _ => llvm_unreachable "unknown operator fixity"
  end.

Module GenericRequirementKind.

Inductive t : Type :=
| Conformance
| SameType.

Scheme Equality for t.

#[global] Instance cenum : CEnum t := {|
  enum_eqb := t_beq;
  enumerators := [
    (Conformance, Explicit 0);
    (SameType, Implicit)
  ]
|}.

End GenericRequirementKind.

Definition GenericRequirementKindField : BCField := BCFixed 1.

Module Associativity.

Inductive t : Type :=
| NonAssociative
| LeftAssociative
| RightAssociative.

Scheme Equality for t.

#[global] Instance cenum : CEnum t := {|
  enum_eqb := t_beq;
  enumerators := [
    (NonAssociative, Explicit 0);
    (LeftAssociative, Implicit);
    (RightAssociative, Implicit)
  ]
|}.

End Associativity.

Definition AssociativityField : BCField := BCFixed 2.

Module Ownership.

Inductive t : Type :=
| Strong
| Weak
| Unowned.

Scheme Equality for t.

#[global] Instance cenum : CEnum t := {|
  enum_eqb := t_beq;
  enumerators := [
    (Strong, Explicit 0);
    (Weak, Implicit);
    (Unowned, Implicit)
  ]
|}.

End Ownership.

Definition OwnershipField : BCField := BCFixed 2.

Module DefaultArgumentKind.

Inductive t : Type :=
| None
| Normal
| File
| Line
| Column.

Scheme Equality for t.

#[global] Instance cenum : CEnum t := {|
  enum_eqb := t_beq;
  enumerators := [
    (None, Explicit 0);
    (Normal, Implicit);
    (File, Implicit);
    (Line, Implicit);
    (Column, Implicit)
  ]
|}.

End DefaultArgumentKind.

Definition DefaultArgumentField : BCField := BCFixed 3.

Module LibraryKind.

Inductive t : Type :=
| Library
| Framework.

Scheme Equality for t.

#[global] Instance cenum : CEnum t := {|
  enum_eqb := t_beq;
  enumerators := [
    (Library, Explicit 0);
    (Framework, Implicit)
  ]
|}.

End LibraryKind.

Definition LibraryKindField : BCField := BCFixed 1.

(** The various types of blocks that can occur within a serialized Swift
    module.  The first block ID is [llvm::bitc::FIRST_APPLICATION_BLOCKID] of
    llvm/Bitcode/BitCodes.h, a constant of LLVM that these sources do not
    give: the enumeration takes it as a parameter. *)
Module BlockID.

Inductive t : Type :=
| CONTROL_BLOCK_ID
| INPUT_BLOCK_ID
| DECLS_AND_TYPES_BLOCK_ID
| IDENTIFIER_DATA_BLOCK_ID
| INDEX_BLOCK_ID
| KNOWN_PROTOCOL_BLOCK_ID
| FALL_BACK_TO_TRANSLATION_UNIT_ID.

Scheme Equality for t.

Definition all : list t := [
  CONTROL_BLOCK_ID;
  INPUT_BLOCK_ID;
  DECLS_AND_TYPES_BLOCK_ID;
  IDENTIFIER_DATA_BLOCK_ID;
  INDEX_BLOCK_ID;
  KNOWN_PROTOCOL_BLOCK_ID;
  FALL_BACK_TO_TRANSLATION_UNIT_ID
].

Section WithLLVM.

Variable FIRST_APPLICATION_BLOCKID : Z.

Definition cenum : CEnum t := {|
  enum_eqb := t_beq;
  enumerators := [
    (CONTROL_BLOCK_ID, Explicit FIRST_APPLICATION_BLOCKID);
    (INPUT_BLOCK_ID, Implicit);
    (DECLS_AND_TYPES_BLOCK_ID, Implicit);
    (IDENTIFIER_DATA_BLOCK_ID, Implicit);
    (INDEX_BLOCK_ID, Implicit);
    (KNOWN_PROTOCOL_BLOCK_ID, Explicit 64);
    (FALL_BACK_TO_TRANSLATION_UNIT_ID, Explicit 100)
  ]
|}.

Definition value (b : t) : Z := @enum_value t cenum b.

End WithLLVM.

End BlockID.

(** The record types within the control block. *)
Module control_block.

Definition METADATA : Z := 1.

Definition MetadataLayout : BCRecordLayout := {|
  Code := METADATA;
  Fields := [
    BCFixed 16; (* Module format major version *)
    BCFixed 16; (* Module format minor version *)
    BCBlob      (* misc. version information *)
  ]
|}.

End control_block.

(** The record types within the input block. *)
Module input_block.

Definition SOURCE_FILE : Z := 1.
Definition IMPORTED_MODULE : Z := SOURCE_FILE + 1.
Definition LINK_LIBRARY : Z := IMPORTED_MODULE + 1.

Definition SourceFileLayout : BCRecordLayout := {|
  Code := SOURCE_FILE;
  Fields := [
    BCBlob (* path *)
  ]
|}.

Definition ImportedModuleLayout : BCRecordLayout := {|
  Code := IMPORTED_MODULE;
  Fields := [
    BCFixed 1; (* exported? *)
    BCBlob     (* module name, optionally followed by a null and then an
                  import path *)
  ]
|}.

Definition LinkLibraryLayout : BCRecordLayout := {|
  Code := LINK_LIBRARY;
  Fields := [
    LibraryKindField; (* kind *)
    BCBlob            (* library name *)
  ]
|}.

End input_block.

Module decls_block.

Module RecordKind.

Inductive t : Type :=
| NAME_ALIAS_TYPE
| GENERIC_TYPE_PARAM_TYPE
| ASSOCIATED_TYPE_TYPE
| DEPENDENT_MEMBER_TYPE
| NOMINAL_TYPE
| PAREN_TYPE
| TUPLE_TYPE
| TUPLE_TYPE_ELT
| FUNCTION_TYPE
| METATYPE_TYPE
| LVALUE_TYPE
| ARCHETYPE_TYPE
| ARCHETYPE_NESTED_TYPE_NAMES
| ARCHETYPE_NESTED_TYPES
| PROTOCOL_COMPOSITION_TYPE
| SUBSTITUTED_TYPE
| BOUND_GENERIC_TYPE
| BOUND_GENERIC_SUBSTITUTION
| POLYMORPHIC_FUNCTION_TYPE
| ARRAY_SLICE_TYPE
| ARRAY_TYPE
| REFERENCE_STORAGE_TYPE
| UNBOUND_GENERIC_TYPE
| OPTIONAL_TYPE
| TYPE_ALIAS_DECL
| GENERIC_TYPE_PARAM_DECL
| ASSOCIATED_TYPE_DECL
| STRUCT_DECL
| CONSTRUCTOR_DECL
| VAR_DECL
| FUNC_DECL
| PATTERN_BINDING_DECL
| PROTOCOL_DECL
| PREFIX_OPERATOR_DECL
| POSTFIX_OPERATOR_DECL
| INFIX_OPERATOR_DECL
| CLASS_DECL
| UNION_DECL
| UNION_ELEMENT_DECL
| SUBSCRIPT_DECL
| EXTENSION_DECL
| DESTRUCTOR_DECL
| KNOWN_PROTOCOL
| PAREN_PATTERN
| TUPLE_PATTERN
| TUPLE_PATTERN_ELT
| NAMED_PATTERN
| ANY_PATTERN
| TYPED_PATTERN
| ISA_PATTERN
| NOMINAL_TYPE_PATTERN
| VAR_PATTERN
| GENERIC_PARAM_LIST
| GENERIC_PARAM
| GENERIC_REQUIREMENT
| NO_CONFORMANCE
| NORMAL_PROTOCOL_CONFORMANCE
| SPECIALIZED_PROTOCOL_CONFORMANCE
| INHERITED_PROTOCOL_CONFORMANCE
| DECL_CONTEXT
| XREF.

Scheme Equality for t.

#[global] Instance cenum : CEnum t := {|
  enum_eqb := t_beq;
  enumerators := [
    (NAME_ALIAS_TYPE, Explicit 1);
    (GENERIC_TYPE_PARAM_TYPE, Implicit);
    (ASSOCIATED_TYPE_TYPE, Implicit);
    (DEPENDENT_MEMBER_TYPE, Implicit);
    (NOMINAL_TYPE, Implicit);
    (PAREN_TYPE, Implicit);
    (TUPLE_TYPE, Implicit);
    (TUPLE_TYPE_ELT, Implicit);
    (FUNCTION_TYPE, Implicit);
    (METATYPE_TYPE, Implicit);
    (LVALUE_TYPE, Implicit);
    (ARCHETYPE_TYPE, Implicit);
    (ARCHETYPE_NESTED_TYPE_NAMES, Implicit);
    (ARCHETYPE_NESTED_TYPES, Implicit);
    (PROTOCOL_COMPOSITION_TYPE, Implicit);
    (SUBSTITUTED_TYPE, Implicit);
    (BOUND_GENERIC_TYPE, Implicit);
    (BOUND_GENERIC_SUBSTITUTION, Implicit);
    (POLYMORPHIC_FUNCTION_TYPE, Implicit);
    (ARRAY_SLICE_TYPE, Implicit);
    (ARRAY_TYPE, Implicit);
    (REFERENCE_STORAGE_TYPE, Implicit);
    (UNBOUND_GENERIC_TYPE, Implicit);
    (OPTIONAL_TYPE, Implicit);

    (TYPE_ALIAS_DECL, Explicit 100);
    (GENERIC_TYPE_PARAM_DECL, Implicit);
    (ASSOCIATED_TYPE_DECL, Implicit);
    (STRUCT_DECL, Implicit);
    (CONSTRUCTOR_DECL, Implicit);
    (VAR_DECL, Implicit);
    (FUNC_DECL, Implicit);
    (PATTERN_BINDING_DECL, Implicit);
    (PROTOCOL_DECL, Implicit);
    (PREFIX_OPERATOR_DECL, Implicit);
    (POSTFIX_OPERATOR_DECL, Implicit);
    (INFIX_OPERATOR_DECL, Implicit);
    (CLASS_DECL, Implicit);
    (UNION_DECL, Implicit);
    (UNION_ELEMENT_DECL, Implicit);
    (SUBSCRIPT_DECL, Implicit);
    (EXTENSION_DECL, Implicit);
    (DESTRUCTOR_DECL, Implicit);
    (KNOWN_PROTOCOL, Implicit);

    (PAREN_PATTERN, Explicit 200);
    (TUPLE_PATTERN, Implicit);
    (TUPLE_PATTERN_ELT, Implicit);
    (NAMED_PATTERN, Implicit);
    (ANY_PATTERN, Implicit);
    (TYPED_PATTERN, Implicit);
    (ISA_PATTERN, Implicit);
    (NOMINAL_TYPE_PATTERN, Implicit);
    (VAR_PATTERN, Implicit);

    (GENERIC_PARAM_LIST, Explicit 240);
    (GENERIC_PARAM, Implicit);
    (GENERIC_REQUIREMENT, Implicit);

    (NO_CONFORMANCE, Explicit 250);
    (NORMAL_PROTOCOL_CONFORMANCE, Explicit 251);
    (SPECIALIZED_PROTOCOL_CONFORMANCE, Explicit 252);
    (INHERITED_PROTOCOL_CONFORMANCE, Explicit 253);
    (DECL_CONTEXT, Explicit 254);
    (XREF, Explicit 255)
  ]
|}.

End RecordKind.

Definition NameAliasTypeLayout : BCRecordLayout := {|
  Code := enum_value RecordKind.NAME_ALIAS_TYPE;
  Fields := [
    DeclIDField (* typealias decl *)
  ]
|}.

Definition GenericTypeParamTypeLayout : BCRecordLayout := {|
  Code := enum_value RecordKind.GENERIC_TYPE_PARAM_TYPE;
  Fields := [
    DeclIDField (* generic type parameter decl *)
  ]
|}.

Definition AssociatedTypeTypeLayout : BCRecordLayout := {|
  Code := enum_value RecordKind.ASSOCIATED_TYPE_TYPE;
  Fields := [
    DeclIDField (* associated type decl *)
  ]
|}.

Definition DependentMemberTypeLayout : BCRecordLayout := {|
  Code := enum_value RecordKind.DEPENDENT_MEMBER_TYPE;
  Fields := [
    TypeIDField;      (* base type *)
    IdentifierIDField (* member name *)
  ]
|}.

Definition NominalTypeLayout : BCRecordLayout := {|
  Code := enum_value RecordKind.NOMINAL_TYPE;
  Fields := [
    DeclIDField; (* decl *)
    TypeIDField  (* parent *)
  ]
|}.

Definition ParenTypeLayout : BCRecordLayout := {|
  Code := enum_value RecordKind.PAREN_TYPE;
  Fields := [
    TypeIDField (* inner type *)
  ]
|}.

Definition TupleTypeLayout : BCRecordLayout := {|
  Code := enum_value RecordKind.TUPLE_TYPE;
  Fields := []
|}.

Definition TupleTypeEltLayout : BCRecordLayout := {|
  Code := enum_value RecordKind.TUPLE_TYPE_ELT;
  Fields := [
    IdentifierIDField;    (* name *)
    TypeIDField;          (* type *)
    DefaultArgumentField; (* default argument *)
    BCFixed 1             (* vararg? *)
  ]
|}.

Definition FunctionTypeLayout : BCRecordLayout := {|
  Code := enum_value RecordKind.FUNCTION_TYPE;
  Fields := [
    TypeIDField;     (* input *)
    TypeIDField;     (* output *)
    AbstractCCField; (* calling convention *)
    BCFixed 1;       (* auto-closure? *)
    BCFixed 1;       (* thin? *)
    BCFixed 1;       (* noreturn? *)
    BCFixed 1        (* block-compatible? *)
  ]
|}.

Definition MetaTypeTypeLayout : BCRecordLayout := {|
  Code := enum_value RecordKind.METATYPE_TYPE;
  Fields := [
    TypeIDField (* instance type *)
  ]
|}.

Definition LValueTypeLayout : BCRecordLayout := {|
  Code := enum_value RecordKind.LVALUE_TYPE;
  Fields := [
    TypeIDField; (* object type *)
    BCFixed 1;   (* implicit? *)
    BCFixed 1    (* non-settable? *)
  ]
|}.

Definition ArchetypeTypeLayout : BCRecordLayout := {|
  Code := enum_value RecordKind.ARCHETYPE_TYPE;
  Fields := [
    IdentifierIDField;  (* name *)
    BCFixed 1;          (* primary? *)
    TypeIDField;        (* index if primary, parent if non-primary *)
    DeclIDField;        (* associated type decl *)
    TypeIDField;        (* superclass *)
    BCArray DeclIDField (* conformances *)
    (* Trailed by the nested types record. *)
  ]
|}.

Definition ArchetypeNestedTypeNamesLayout : BCRecordLayout := {|
  Code := enum_value RecordKind.ARCHETYPE_NESTED_TYPE_NAMES;
  Fields := [
    BCArray IdentifierIDField
  ]
|}.

Definition ArchetypeNestedTypesLayout : BCRecordLayout := {|
  Code := enum_value RecordKind.ARCHETYPE_NESTED_TYPES;
  Fields := [
    BCArray TypeIDField
  ]
|}.

Definition ProtocolCompositionTypeLayout : BCRecordLayout := {|
  Code := enum_value RecordKind.PROTOCOL_COMPOSITION_TYPE;
  Fields := [
    BCArray TypeIDField (* protocols *)
  ]
|}.

Definition SubstitutedTypeLayout : BCRecordLayout := {|
  Code := enum_value RecordKind.SUBSTITUTED_TYPE;
  Fields := [
    TypeIDField; (* original *)
    TypeIDField  (* substitution *)
  ]
|}.

Definition BoundGenericTypeLayout : BCRecordLayout := {|
  Code := enum_value RecordKind.BOUND_GENERIC_TYPE;
  Fields := [
    DeclIDField;        (* generic decl *)
    TypeIDField;        (* parent *)
    BCVBR 6;            (* # of substitutions *)
    BCArray TypeIDField (* generic arguments *)
    (* The substitutions trail this record. *)
  ]
|}.

Definition BoundGenericSubstitutionLayout : BCRecordLayout := {|
  Code := enum_value RecordKind.BOUND_GENERIC_SUBSTITUTION;
  Fields := [
    TypeIDField; (* archetype *)
    TypeIDField; (* replacement *)
    BCVBR 6      (* # of conformances *)
    (* Trailed by the protocol conformance info (if any) *)
  ]
|}.

Definition PolymorphicFunctionTypeLayout : BCRecordLayout := {|
  Code := enum_value RecordKind.POLYMORPHIC_FUNCTION_TYPE;
  Fields := [
    TypeIDField;     (* input *)
    TypeIDField;     (* output *)
    DeclIDField;     (* decl that owns the generic params *)
    AbstractCCField; (* calling convention *)
    BCFixed 1;       (* thin? *)
    BCFixed 1        (* noreturn? *)
  ]
|}.

Definition SyntaxSugarTypeLayout (Code : Z) : BCRecordLayout := {|
  Code := Code;
  Fields := [
    TypeIDField (* element type *)
  ]
|}.

Definition ArraySliceTypeLayout : BCRecordLayout :=
  SyntaxSugarTypeLayout (enum_value RecordKind.ARRAY_SLICE_TYPE).

Definition OptionalTypeLayout : BCRecordLayout :=
  SyntaxSugarTypeLayout (enum_value RecordKind.OPTIONAL_TYPE).

Definition ArrayTypeLayout : BCRecordLayout := {|
  Code := enum_value RecordKind.ARRAY_TYPE;
  Fields := [
    TypeIDField; (* element type *)
    BCVBR 8      (* size *)
  ]
|}.

Definition ReferenceStorageTypeLayout : BCRecordLayout := {|
  Code := enum_value RecordKind.REFERENCE_STORAGE_TYPE;
  Fields := [
    OwnershipField; (* ownership *)
    TypeIDField     (* implementation type *)
  ]
|}.

Definition UnboundGenericTypeLayout : BCRecordLayout := {|
  Code := enum_value RecordKind.UNBOUND_GENERIC_TYPE;
  Fields := [
    DeclIDField; (* generic decl *)
    TypeIDField  (* parent *)
  ]
|}.

Definition TypeAliasLayout : BCRecordLayout := {|
  Code := enum_value RecordKind.TYPE_ALIAS_DECL;
  Fields := [
    IdentifierIDField; (* name *)
    DeclIDField;       (* context decl *)
    TypeIDField;       (* underlying type *)
    BCFixed 1          (* implicit flag *)
    (* Trailed by the conformance info (if any). *)
  ]
|}.

Definition GenericTypeParamDeclLayout : BCRecordLayout := {|
  Code := enum_value RecordKind.GENERIC_TYPE_PARAM_DECL;
  Fields := [
    IdentifierIDField; (* name *)
    DeclIDField;       (* context decl *)
    BCVBR 4;           (* depth *)
    BCVBR 4;           (* index *)
    TypeIDField;       (* superclass type *)
    TypeIDField        (* archetype type *)
    (* Trailed by the conformance info (if any). *)
  ]
|}.

Definition AssociatedTypeDeclLayout : BCRecordLayout := {|
  Code := enum_value RecordKind.ASSOCIATED_TYPE_DECL;
  Fields := [
    IdentifierIDField; (* name *)
    DeclIDField;       (* context decl *)
    TypeIDField;       (* underlying type *)
    TypeIDField;       (* archetype type *)
    BCFixed 1          (* implicit flag *)
    (* Trailed by the conformance info (if any). *)
  ]
|}.

Definition NominalLayout (Code : Z) : BCRecordLayout := {|
  Code := Code;
  Fields := [
    IdentifierIDField; (* name *)
    DeclIDField;       (* context decl *)
    BCFixed 1          (* implicit flag *)
    (* Trailed by the generic parameters (if any), conformance info (if any),
       and finally the decl context record. *)
  ]
|}.

Definition StructLayout : BCRecordLayout :=
  NominalLayout (enum_value RecordKind.STRUCT_DECL).

Definition UnionLayout : BCRecordLayout :=
  NominalLayout (enum_value RecordKind.UNION_DECL).

Definition ClassLayout : BCRecordLayout := {|
  Code := enum_value RecordKind.CLASS_DECL;
  Fields := [
    IdentifierIDField; (* name *)
    DeclIDField;       (* context decl *)
    BCFixed 1;         (* implicit? *)
    BCFixed 1;         (* explicitly objc? *)
    TypeIDField        (* superclass *)
    (* Trailed by the generic parameters (if any), conformance info (if any),
       and finally the decl context record. *)
  ]
|}.

Definition ProtocolLayout : BCRecordLayout := {|
  Code := enum_value RecordKind.PROTOCOL_DECL;
  Fields := [
    IdentifierIDField;  (* name *)
    DeclIDField;        (* context decl *)
    BCFixed 1;          (* implicit flag *)
    BCFixed 1;          (* class protocol? *)
    BCFixed 1;          (* objc? *)
    BCArray DeclIDField (* protocols *)
  ]
|}.

Definition ConstructorLayout : BCRecordLayout := {|
  Code := enum_value RecordKind.CONSTRUCTOR_DECL;
  Fields := [
    DeclIDField; (* context decl *)
    BCFixed 1;   (* implicit? *)
    BCFixed 1;   (* objc? *)
    TypeIDField; (* type (signature) *)
    DeclIDField  (* implicit this decl *)
    (* Trailed by its generic parameters, if any, followed by the parameter
       pattern. *)
  ]
|}.

Definition VarLayout : BCRecordLayout := {|
  Code := enum_value RecordKind.VAR_DECL;
  Fields := [
    IdentifierIDField; (* name *)
    DeclIDField;       (* context decl *)
    BCFixed 1;         (* implicit? *)
    BCFixed 1;         (* explicitly objc? *)
    BCFixed 1;         (* iboutlet? *)
    TypeIDField;       (* type *)
    DeclIDField;       (* getter *)
    DeclIDField;       (* setter *)
    DeclIDField        (* overridden decl *)
  ]
|}.

Definition FuncLayout : BCRecordLayout := {|
  Code := enum_value RecordKind.FUNC_DECL;
  Fields := [
    IdentifierIDField; (* name *)
    DeclIDField;       (* context decl *)
    BCFixed 1;         (* implicit? *)
    BCFixed 1;         (* class method? *)
    BCFixed 1;         (* assignment? / conversion? *)
    BCFixed 1;         (* explicitly objc? *)
    BCFixed 1;         (* iboutlet? *)
    TypeIDField;       (* type (signature) *)
    DeclIDField;       (* operator decl *)
    DeclIDField;       (* overridden function *)
    BCBlob             (* asmname, if any *)
    (* The record is trailed by its generic parameters, if any, followed by
       its argument and body parameter patterns. *)
  ]
|}.

Definition PatternBindingLayout : BCRecordLayout := {|
  Code := enum_value RecordKind.PATTERN_BINDING_DECL;
  Fields := [
    DeclIDField; (* context decl *)
    BCFixed 1    (* implicit flag *)
    (* The pattern trails the record. *)
  ]
|}.

Definition UnaryOperatorLayout (Code : Z) : BCRecordLayout := {|
  Code := Code; (* ID field *)
  Fields := [
    IdentifierIDField; (* name *)
    DeclIDField        (* context decl *)
  ]
|}.

Definition PrefixOperatorLayout : BCRecordLayout :=
  UnaryOperatorLayout (enum_value RecordKind.PREFIX_OPERATOR_DECL).

Definition PostfixOperatorLayout : BCRecordLayout :=
  UnaryOperatorLayout (enum_value RecordKind.POSTFIX_OPERATOR_DECL).

Definition InfixOperatorLayout : BCRecordLayout := {|
  Code := enum_value RecordKind.INFIX_OPERATOR_DECL;
  Fields := [
    IdentifierIDField; (* name *)
    DeclIDField;       (* context decl *)
    AssociativityField;
    BCFixed 8          (* precedence *)
  ]
|}.

Definition UnionElementLayout : BCRecordLayout := {|
  Code := enum_value RecordKind.UNION_ELEMENT_DECL;
  Fields := [
    IdentifierIDField; (* name *)
    DeclIDField;       (* context decl *)
    TypeIDField;       (* argument type *)
    TypeIDField;       (* result type *)
    TypeIDField;       (* constructor type *)
    BCFixed 1          (* implicit? *)
  ]
|}.

Definition SubscriptLayout : BCRecordLayout := {|
  Code := enum_value RecordKind.SUBSCRIPT_DECL;
  Fields := [
    DeclIDField; (* context decl *)
    BCFixed 1;   (* implicit? *)
    BCFixed 1;   (* objc? *)
    TypeIDField; (* subscript dummy type *)
    TypeIDField; (* element type *)
    DeclIDField; (* getter *)
    DeclIDField; (* setter *)
    DeclIDField  (* overridden decl *)
    (* The indices pattern trails the record. *)
  ]
|}.

Definition ExtensionLayout : BCRecordLayout := {|
  Code := enum_value RecordKind.EXTENSION_DECL;
  Fields := [
    TypeIDField; (* base type *)
    DeclIDField; (* context decl *)
    BCFixed 1    (* implicit flag *)
    (* Trailed by conformance info (if any), then the decl context record. *)
  ]
|}.

Definition DestructorLayout : BCRecordLayout := {|
  Code := enum_value RecordKind.DESTRUCTOR_DECL;
  Fields := [
    DeclIDField; (* context decl *)
    BCFixed 1;   (* implicit? *)
    BCFixed 1;   (* objc? *)
    TypeIDField; (* type (signature) *)
    DeclIDField  (* implicit this decl *)
  ]
|}.

Definition ParenPatternLayout : BCRecordLayout := {|
  Code := enum_value RecordKind.PAREN_PATTERN;
  Fields := [
    BCFixed 1 (* implicit? *)
    (* The sub-pattern trails the record. *)
  ]
|}.

Definition TuplePatternLayout : BCRecordLayout := {|
  Code := enum_value RecordKind.TUPLE_PATTERN;
  Fields := [
    TypeIDField; (* type *)
    BCVBR 5;     (* arity *)
    BCFixed 1;   (* implicit? *)
    BCFixed 1    (* has vararg? *)
    (* The elements trail the record. *)
  ]
|}.

Definition TuplePatternEltLayout : BCRecordLayout := {|
  Code := enum_value RecordKind.TUPLE_PATTERN_ELT;
  Fields := [
    DefaultArgumentField (* default argument *)
  ]
|}.

Definition NamedPatternLayout : BCRecordLayout := {|
  Code := enum_value RecordKind.NAMED_PATTERN;
  Fields := [
    DeclIDField; (* associated VarDecl *)
    BCFixed 1    (* implicit? *)
  ]
|}.

Definition AnyPatternLayout : BCRecordLayout := {|
  Code := enum_value RecordKind.ANY_PATTERN;
  Fields := [
    TypeIDField; (* type *)
    BCFixed 1    (* implicit? *)
  ]
|}.

Definition TypedPatternLayout : BCRecordLayout := {|
  Code := enum_value RecordKind.TYPED_PATTERN;
  Fields := [
    TypeIDField; (* associated type *)
    BCFixed 1    (* implicit? *)
    (* The sub-pattern trails the record. *)
  ]
|}.

Definition IsaPatternLayout : BCRecordLayout := {|
  Code := enum_value RecordKind.ISA_PATTERN;
  Fields := [
    TypeIDField; (* type *)
    BCFixed 1    (* implicit? *)
  ]
|}.

Definition NominalTypePatternLayout : BCRecordLayout := {|
  Code := enum_value RecordKind.NOMINAL_TYPE_PATTERN;
  Fields := [
    TypeIDField;
    BCFixed 1 (* implicit? *)
    (* The sub-pattern trails the record. *)
  ]
|}.

Definition VarPatternLayout : BCRecordLayout := {|
  Code := enum_value RecordKind.VAR_PATTERN;
  Fields := [
    BCFixed 1 (* implicit? *)
    (* The sub-pattern trails the record. *)
  ]
|}.

Definition GenericParamListLayout : BCRecordLayout := {|
  Code := enum_value RecordKind.GENERIC_PARAM_LIST;
  Fields := [
    BCArray TypeIDField (* Archetypes *)
    (* The actual parameters and requirements trail the record. *)
  ]
|}.

Definition GenericParamLayout : BCRecordLayout := {|
  Code := enum_value RecordKind.GENERIC_PARAM;
  Fields := [
    DeclIDField (* Typealias *)
  ]
|}.

Definition GenericRequirementLayout : BCRecordLayout := {|
  Code := enum_value RecordKind.GENERIC_REQUIREMENT;
  Fields := [
    GenericRequirementKindField; (* requirement kind *)
    BCArray TypeIDField          (* types involved (currently always two) *)
  ]
|}.

(** A placeholder for lack of conformance information. Conformances are
    indexed, so simply omitting one would be incorrect. *)
Definition NoConformanceLayout : BCRecordLayout := {|
  Code := enum_value RecordKind.NO_CONFORMANCE;
  Fields := [
    DeclIDField (* the protocol *)
  ]
|}.

Definition NormalProtocolConformanceLayout : BCRecordLayout := {|
  Code := enum_value RecordKind.NORMAL_PROTOCOL_CONFORMANCE;
  Fields := [
    DeclIDField; (* the protocol *)
    BCVBR 5;     (* value mapping count *)
    BCVBR 5;     (* type mapping count *)
    BCVBR 5;     (* inherited conformances count *)
    BCVBR 5;     (* defaulted definitions count *)
    BCArray DeclIDField
    (* The array contains value-value-substitutionCount triplets,
       then type declarations, then defaulted definitions.
       The inherited conformances trail the record, followed by substitution
       records for the values and then types. *)
  ]
|}.

Definition SpecializedProtocolConformanceLayout : BCRecordLayout := {|
  Code := enum_value RecordKind.SPECIALIZED_PROTOCOL_CONFORMANCE;
  Fields := [
    DeclIDField;        (* the protocol *)
    DeclIDField;        (* the nominal type decl for the generic conformance,
                           or the conforming type for the generic conformance
                           record that follows *)
    IdentifierIDField;  (* the module in which the generic conformance occurs,
                           or 0 to indicate that the generic conformance
                           is in the following record *)
    BCVBR 5;            (* type mapping count *)
    BCVBR 5;            (* # of substitutions for the conformance *)
    BCArray DeclIDField (* the type witnesses *)
    (* followed by substitution records for the conformance, then the
       substitution records for the type witnesses *)
  ]
|}.

Definition InheritedProtocolConformanceLayout : BCRecordLayout := {|
  Code := enum_value RecordKind.INHERITED_PROTOCOL_CONFORMANCE;
  Fields := [
    DeclIDField;      (* the protocol *)
    DeclIDField;      (* the nominal type decl for the inherited conformance,
                         or the conforming type for the inherited conformance
                         record that follows *)
    IdentifierIDField (* the module in which the inherited conformance occurs,
                         or 0 to indicate that the inherited conformance is
                         in the following record *)
  ]
|}.

Definition DeclContextLayout : BCRecordLayout := {|
  Code := enum_value RecordKind.DECL_CONTEXT;
  Fields := [
    BCArray DeclIDField
  ]
|}.

Definition XRefLayout : BCRecordLayout := {|
  Code := enum_value RecordKind.XREF;
  Fields := [
    XRefKindField; (* reference kind *)
    TypeIDField;   (* type if value, operator kind if operator,
                      index if generic parameter *)
    BCFixed 1;     (* within extension? *)
    BCArray IdentifierIDField (* extension module name (if extension value)
                                 base module name
                                 access path *)
  ]
|}.

(** The record layouts of the block, in the order the header declares them. *)
Definition layouts : list BCRecordLayout := [
  NameAliasTypeLayout;
  GenericTypeParamTypeLayout;
  AssociatedTypeTypeLayout;
  DependentMemberTypeLayout;
  NominalTypeLayout;
  ParenTypeLayout;
  TupleTypeLayout;
  TupleTypeEltLayout;
  FunctionTypeLayout;
  MetaTypeTypeLayout;
  LValueTypeLayout;
  ArchetypeTypeLayout;
  ArchetypeNestedTypeNamesLayout;
  ArchetypeNestedTypesLayout;
  ProtocolCompositionTypeLayout;
  SubstitutedTypeLayout;
  BoundGenericTypeLayout;
  BoundGenericSubstitutionLayout;
  PolymorphicFunctionTypeLayout;
  ArraySliceTypeLayout;
  OptionalTypeLayout;
  ArrayTypeLayout;
  ReferenceStorageTypeLayout;
  UnboundGenericTypeLayout;
  TypeAliasLayout;
  GenericTypeParamDeclLayout;
  AssociatedTypeDeclLayout;
  StructLayout;
  UnionLayout;
  ClassLayout;
  ProtocolLayout;
  ConstructorLayout;
  VarLayout;
  FuncLayout;
  PatternBindingLayout;
  PrefixOperatorLayout;
  PostfixOperatorLayout;
  InfixOperatorLayout;
  UnionElementLayout;
  SubscriptLayout;
  ExtensionLayout;
  DestructorLayout;
  ParenPatternLayout;
  TuplePatternLayout;
  TuplePatternEltLayout;
  NamedPatternLayout;
  AnyPatternLayout;
  TypedPatternLayout;
  IsaPatternLayout;
  NominalTypePatternLayout;
  VarPatternLayout;
  GenericParamListLayout;
  GenericParamLayout;
  GenericRequirementLayout;
  NoConformanceLayout;
  NormalProtocolConformanceLayout;
  SpecializedProtocolConformanceLayout;
  InheritedProtocolConformanceLayout;
  DeclContextLayout;
  XRefLayout
].

End decls_block.

(** Returns the encoding kind for the given decl.

    Note that this does not work for all encodable decls, only those designed
    to be stored in a hash table. *)
Definition getKindForTable (D : Decl) : Reach decls_block.RecordKind.t :=
  match getKind D with
  | DeclKind.TypeAlias => Returns decls_block.RecordKind.TYPE_ALIAS_DECL
  | DeclKind.Union => Returns decls_block.RecordKind.UNION_DECL
  | DeclKind.Struct => Returns decls_block.RecordKind.STRUCT_DECL
  | DeclKind.Class => Returns decls_block.RecordKind.CLASS_DECL
  | DeclKind.Protocol => Returns decls_block.RecordKind.PROTOCOL_DECL
  | DeclKind.Func => Returns decls_block.RecordKind.FUNC_DECL
  | DeclKind.Var => Returns decls_block.RecordKind.VAR_DECL
  | DeclKind.Subscript => Returns decls_block.RecordKind.SUBSCRIPT_DECL
  | DeclKind.Constructor => Returns decls_block.RecordKind.CONSTRUCTOR_DECL
  | DeclKind.Destructor => Returns decls_block.RecordKind.DESTRUCTOR_DECL
  | _ => llvm_unreachable "cannot store this kind of decl in a hash table"
  end.

(** The record types within the identifier block. *)
Module identifier_block.

Definition IDENTIFIER_DATA : Z := 1.

Definition IdentifierDataLayout : BCRecordLayout := {|
  Code := IDENTIFIER_DATA;
  Fields := [BCBlob]
|}.

End identifier_block.

(** The record types within the index block. *)
Module index_block.

Module RecordKind.

Inductive t : Type :=
| TYPE_OFFSETS
| DECL_OFFSETS
| IDENTIFIER_OFFSETS
| TOP_LEVEL_DECLS
| OPERATORS
| EXTENSIONS
| CLASS_MEMBERS.

Scheme Equality for t.

#[global] Instance cenum : CEnum t := {|
  enum_eqb := t_beq;
  enumerators := [
    (TYPE_OFFSETS, Explicit 1);
    (DECL_OFFSETS, Implicit);
    (IDENTIFIER_OFFSETS, Implicit);
    (TOP_LEVEL_DECLS, Implicit);
    (OPERATORS, Implicit);
    (EXTENSIONS, Implicit);
    (CLASS_MEMBERS, Implicit)
  ]
|}.

End RecordKind.

Definition OffsetsLayout : BCGenericRecordLayout := {|
  IDField := BCFixed 3; (* record ID *)
  GenericFields := [
    BCArray BitOffsetField
  ]
|}.

Definition DeclListLayout : BCGenericRecordLayout := {|
  IDField := BCFixed 3; (* record ID *)
  GenericFields := [
    BCVBR 16; (* table offset within the blob *)
    BCBlob    (* map from identifier strings to decl kinds / decl IDs *)
  ]
|}.

(** A stable version of swift::KnownProtocolKind. *)
Module KnownProtocolKind.

Inductive t : Type :=
| FORCE_DESERIALIZATION
| ArrayBound
| Enumerable
| Enumerator
| LogicValue
| ArrayLiteralConvertible
| CharacterLiteralConvertible
| DictionaryLiteralConvertible
| FloatLiteralConvertible
| IntegerLiteralConvertible
| StringInterpolationConvertible
| StringLiteralConvertible
| BuiltinCharacterLiteralConvertible
| BuiltinFloatLiteralConvertible
| BuiltinIntegerLiteralConvertible
| BuiltinStringLiteralConvertible.

Scheme Equality for t.

#[global] Instance cenum : CEnum t := {|
  enum_eqb := t_beq;
  enumerators := [
    (FORCE_DESERIALIZATION, Implicit);

    (ArrayBound, Explicit 1);
    (Enumerable, Implicit);
    (Enumerator, Implicit);
    (LogicValue, Implicit);

    (ArrayLiteralConvertible, Implicit);
    (CharacterLiteralConvertible, Implicit);
    (DictionaryLiteralConvertible, Implicit);
    (FloatLiteralConvertible, Implicit);
    (IntegerLiteralConvertible, Implicit);
    (StringInterpolationConvertible, Implicit);
    (StringLiteralConvertible, Implicit);

    (BuiltinCharacterLiteralConvertible, Implicit);
    (BuiltinFloatLiteralConvertible, Implicit);
    (BuiltinIntegerLiteralConvertible, Implicit);
    (BuiltinStringLiteralConvertible, Implicit)
  ]
|}.

End KnownProtocolKind.

Definition KnownProtocolLayout : BCGenericRecordLayout := {|
  IDField := BCFixed 4; (* known protocol ID *)
  GenericFields := [
    BCArray DeclIDField (* list of conforming decls *)
  ]
|}.

End index_block.

End serialization.

(** ** The reader's version gate *)

Module reader.

(** Modelled from the spec: the reader that validates the control block of a
    container and then decodes its records (lib/Serialization/ModuleFile.cpp)
    is not among these sources.  Section 3: after the signature a container
    holds a major/minor version pair and its blocks, and a reader must reject
    a file whose major version differs from its own and tolerate a different
    minor version.  Section 4.2: the tag of a record and the schema determine
    the fields to decode, in order.  Section 4.1: a field is never read past
    the end of its record; that is a corruption error.  Section 7: the error
    taxonomy; a reader skips an unknown tag in a block that is forward
    compatible, and fails with SchemaMismatchError in a block that is not.
    Section 8: the rejection comes with FormatVersionError before any record
    decoding is attempted, and after a bump of the minor version alone
    unknown trailing fields and tags are ignored. *)
Inductive LoadError : Type :=
| FormatVersionError
| CorruptionError
| ResolutionError
| SchemaMismatchError.

Record RawRecord : Type := {
  record_code : Z;
  record_operands : list Z
}.

(** A decoded record: its tag and the fields the schema defines for it. *)
Record Node : Type := {
  node_code : Z;
  node_fields : list Z
}.

Record Block : Type := {
  block_id : Z;
  block_records : list RawRecord
}.

(** The control block's METADATA record (major version, minor version, blob)
    and the blocks that follow it. *)
Record Container : Type := {
  version_major : Z;
  version_minor : Z;
  version_misc : list Z;
  blocks : list Block
}.

Definition with_minor (c : Container) (minor' : Z) : Container := {|
  version_major := version_major c;
  version_minor := minor';
  version_misc := version_misc c;
  blocks := blocks c
|}.

Definition with_blocks (c : Container) (bs : list Block) : Container := {|
  version_major := version_major c;
  version_minor := version_minor c;
  version_misc := version_misc c;
  blocks := bs
|}.

Definition all_records (c : Container) : list RawRecord :=
  List.concat (map block_records (blocks c)).

Inductive Decoded : Type :=
| Known (n : Node)
| UnknownTag
| Malformed.

Definition on_nodes (f : list Node -> list Node) (r : LoadError + list Node)
  : LoadError + list Node :=
  match r with
  | inl e => inl e
  | inr ns => inr (f ns)
  end.

Section Load.

(** The major version constant of the reader. *)
Variable reader_major : Z.

(** The schema of the reader: the number of fields of each record tag it
    knows in each block. *)
Variable schema : Z -> Z -> option nat.

(** The blocks in which the reader skips a tag it does not know. *)
Variable forward_compatible : Z -> bool.

(** Decoding of one record of block [b]: the fields the schema defines for
    its tag are read in order and what follows them is ignored; a record too
    short for its fields is malformed. *)
Definition decodeRecord (b : Z) (r : RawRecord) : Decoded :=
  match schema b (record_code r) with
  | None => UnknownTag
  | Some n =>
      if (n <=? List.length (record_operands r))%nat
      then Known {| node_code := record_code r;
                    node_fields := firstn n (record_operands r) |}
      else Malformed
  end.

(** Decodes the records of block [b] in order.  The state threaded through is
    the number of records whose decoding has been attempted. *)
Fixpoint decodeRecords (b : Z) (attempted : nat) (rs : list RawRecord)
  : nat * (LoadError + list Node) :=
  match rs with
  | [] => (attempted, inr [])
  | r :: rs' =>
      match decodeRecord b r with
      | Malformed => (S attempted, inl CorruptionError)
      | UnknownTag =>
          if forward_compatible b
          then decodeRecords b (S attempted) rs'
          else (S attempted, inl SchemaMismatchError)
      | Known n =>
          let (k, res) := decodeRecords b (S attempted) rs' in
          (k, on_nodes (cons n) res)
      end
  end.

Fixpoint decodeBlocks (attempted : nat) (bs : list Block)
  : nat * (LoadError + list Node) :=
  match bs with
  | [] => (attempted, inr [])
  | b :: bs' =>
      let (k, res) := decodeRecords (block_id b) attempted (block_records b) in
      match res with
      | inl e => (k, inl e)
      | inr ns =>
          let (k', res') := decodeBlocks k bs' in
          (k', on_nodes (app ns) res')
      end
  end.

Definition validateControlBlock (c : Container) : option LoadError :=
  if version_major c =? reader_major then None else Some FormatVersionError.

Definition load (c : Container) : nat * (LoadError + list Node) :=
  match validateControlBlock c with
  | Some e => (O, inl e)
  | None => decodeBlocks O (blocks c)
  end.

(** A record whose tag the reader does not know. *)
Definition is_unknown (b : Z) (r : RawRecord) : bool :=
  match decodeRecord b r with
  | UnknownTag => true
  | _ => false
  end.

(** A record the reader gets past: one that decodes, or one of unknown tag in
    a forward compatible block. *)
Definition acceptable (b : Z) (r : RawRecord) : bool :=
  match decodeRecord b r with
  | Known _ => true
  | UnknownTag => forward_compatible b
  | Malformed => false
  end.

(** The block without the records of unknown tag, if it is forward
    compatible. *)
Definition strip_block (b : Block) : Block := {|
  block_id := block_id b;
  block_records :=
    if forward_compatible (block_id b)
    then filter (fun r => negb (is_unknown (block_id b) r)) (block_records b)
    else block_records b
|}.

(** The record without the operands that follow the fields of its tag. *)
Definition trim_record (b : Z) (r : RawRecord) : RawRecord :=
  match schema b (record_code r) with
  | None => r
  | Some n => {| record_code := record_code r;
                 record_operands := firstn n (record_operands r) |}
  end.

Definition trim_block (b : Block) : Block := {|
  block_id := block_id b;
  block_records := map (trim_record (block_id b)) (block_records b)
|}.

End Load.

End reader.

(** ** Vocabulary of the properties *)

(** The declaration kinds of operators, the domain of [getStableFixity]. *)
Definition operator_kinds : list DeclKind.t :=
  [DeclKind.InfixOperator; DeclKind.PrefixOperator; DeclKind.PostfixOperator].

(** The declaration kinds that are stored in a hash table, the domain of
    [getKindForTable]. *)
Definition table_kinds : list DeclKind.t :=
  [DeclKind.TypeAlias; DeclKind.Union; DeclKind.Struct; DeclKind.Class;
   DeclKind.Protocol; DeclKind.Func; DeclKind.Var; DeclKind.Subscript;
   DeclKind.Constructor; DeclKind.Destructor].

(** An enumeration is paired with a fixed-width field of [w] bits, its largest
    value being [m]: the field is [BCFixed w], [m] is below [2^w], and every
    enumerator is at most [m] and is emitted without an encoding error. *)
Definition paired (A : Type) `{CEnum A} (f : BCField) (w m : Z) : Prop :=
  f = BCFixed w
  /\ enum_max (A := A) = m
  /\ m < 2 ^ w
  /\ forall a : A,
       0 <= enum_value a <= m /\ emit f (enum_value a) <> None.

(** The record layouts with a fixed record code, by the block whose records
    they describe: each namespace of record types names its block.  The index
    block and its known protocol sub-block have only layouts whose record ID
    is itself a field. *)
Definition block_layouts (b : serialization.BlockID.t) : list BCRecordLayout :=
  match b with
  | serialization.BlockID.CONTROL_BLOCK_ID =>
      [serialization.control_block.MetadataLayout]
  | serialization.BlockID.INPUT_BLOCK_ID =>
      [serialization.input_block.SourceFileLayout;
       serialization.input_block.ImportedModuleLayout;
       serialization.input_block.LinkLibraryLayout]
  | serialization.BlockID.DECLS_AND_TYPES_BLOCK_ID =>
      serialization.decls_block.layouts
  | serialization.BlockID.IDENTIFIER_DATA_BLOCK_ID =>
      [serialization.identifier_block.IdentifierDataLayout]
  | _ => []
  end.

Definition generic_layouts : list BCGenericRecordLayout :=
  [serialization.index_block.OffsetsLayout;
   serialization.index_block.DeclListLayout;
   serialization.index_block.KnownProtocolLayout].

(** The field list of every layout of the header; a layout whose record ID is
    a field has that field first. *)
Definition field_lists : list (list BCField) :=
  map Fields (List.concat (map block_layouts serialization.BlockID.all))
  ++ map (fun g => IDField g :: GenericFields g) generic_layouts.

Definition is_scalar (f : BCField) : bool :=
  match f with
  | BCFixed _ | BCVBR _ => true
  | BCArray _ | BCBlob => false
  end.

Definition is_nil {A : Type} (l : list A) : bool :=
  match l with
  | [] => true
  | _ :: _ => false
  end.

(** Arrays and blobs only in the last position, arrays of scalars only. *)
Fixpoint trailing_ok (fs : list BCField) : bool :=
  match fs with
  | [] => true
  | BCArray e :: fs' => is_scalar e && is_nil fs'
  | BCBlob :: fs' => is_nil fs'
  | _ :: fs' => trailing_ok fs'
  end.

Definition width_ok (f : BCField) : bool :=
  match f with
  | BCFixed w => (1 <=? w) && (w <=? 31)
  | BCVBR w => (4 <=? w) && (w <=? 16)
  | BCArray (BCFixed w) => w =? 31
  | BCArray _ => false
  | BCBlob => true
  end.

Fixpoint nodupb (l : list Z) : bool :=
  match l with
  | [] => true
  | x :: l' => negb (existsb (Z.eqb x) l') && nodupb l'
  end.

(** The layouts of the decls-and-types block that carry the tag of [k]. *)
Definition layouts_of (k : serialization.decls_block.RecordKind.t)
  : list BCRecordLayout :=
  filter (fun L => Code L =? enum_value k) serialization.decls_block.layouts.

(** Of the integers a fixed-width field of [w] bits can hold, those of [l]
    and no others are the value of no enumerator of [A]. *)
Definition unused_exactly (A : Type) `{CEnum A} (w : Z) (l : list Z) : Prop :=
  forall v : Z,
    0 <= v < 2 ^ w -> (enum_of_value (A := A) v = None <-> In v l).

(** Conversion of an integer to an enumeration whose underlying type is
    unsigned of [bits] bits: the integer is first converted to the
    underlying type, that is, reduced modulo [2^bits]; the result is the
    value of an enumerator or not. *)
Definition enum_cast {A : Type} `{CEnum A} (bits v : Z) : option A :=
  enum_of_value (v mod 2 ^ bits).

(** No two enumerators share a value, every value is one of the [uint8_t]
    underlying type, and every integer that is an enumerator's value modulo
    256 converts to that enumerator. *)
Definition stable (A : Type) `{CEnum A} : Prop :=
  (forall a b : A, enum_value a = enum_value b -> a = b)
  /\ (forall a : A, fits_unsigned uint8_t_bits (enum_value a) = true)
  /\ (forall (a : A) (k : Z),
        enum_cast uint8_t_bits (enum_value a + 2 ^ uint8_t_bits * k) = Some a).

(** ** Properties *)

Section EnumFacts.

Context {A : Type} `{CEnum A}.

(** An enumerator whose value converts back to it is told apart from every
    other enumerator by its value. *)
Lemma enum_value_inj_of_retract :
  (forall a : A, enum_of_value (enum_value a) = Some a) ->
  forall a b : A, enum_value a = enum_value b -> a = b.
Proof.
  intros Hret a b Hab.
  pose proof (Hret a) as Ha.
  rewrite Hab, (Hret b) in Ha.
  now inversion Ha.
Qed.

End EnumFacts.

Lemma number_implicit_run {A : Type} (next : Z) (es : list (A * Initializer)) :
  Forall (fun p => snd p = Implicit) es ->
  map snd (number next es) = zrange next (List.length es).
Proof.
  revert next.
  induction es as [|[a i] es IH]; intros next Hall; [reflexivity|].
  inversion Hall as [|p q Hi Hrest]; subst.
  simpl in Hi; subst i.
  simpl. f_equal. now apply IH.
Qed.

Import serialization.

Lemma RecordKind_retract (k : decls_block.RecordKind.t) :
  enum_of_value (enum_value k) = Some k.
Proof. destruct k; reflexivity. Qed.

(** C1: the record tags of the decls-and-types block are pairwise distinct,
    each fits the enumeration's [uint8_t] underlying type, and in source order
    they are 1..24 (types), 100..118 (declarations), 200..208 (patterns),
    240..242 (generic machinery) and 250..255 (conformances, decl context and
    cross-reference), with XREF = 255 the largest. *)
Theorem decls_block_record_tags :
  (forall a b : decls_block.RecordKind.t, enum_value a = enum_value b -> a = b)
  /\ (forall k : decls_block.RecordKind.t,
        fits_unsigned uint8_t_bits (enum_value k) = true)
  /\ enum_values (A := decls_block.RecordKind.t)
     = zrange 1 24 ++ zrange 100 19 ++ zrange 200 9 ++ zrange 240 3 ++ zrange 250 6
  /\ enum_value decls_block.RecordKind.NAME_ALIAS_TYPE = 1
  /\ enum_value decls_block.RecordKind.OPTIONAL_TYPE = 24
  /\ enum_value decls_block.RecordKind.TYPE_ALIAS_DECL = 100
  /\ enum_value decls_block.RecordKind.KNOWN_PROTOCOL = 118
  /\ enum_value decls_block.RecordKind.PAREN_PATTERN = 200
  /\ enum_value decls_block.RecordKind.VAR_PATTERN = 208
  /\ enum_value decls_block.RecordKind.GENERIC_PARAM_LIST = 240
  /\ enum_value decls_block.RecordKind.GENERIC_REQUIREMENT = 242
  /\ enum_value decls_block.RecordKind.NO_CONFORMANCE = 250
  /\ enum_value decls_block.RecordKind.XREF = 255
  /\ (forall k : decls_block.RecordKind.t,
        enum_value k <= enum_value decls_block.RecordKind.XREF).
Proof.
  split; [exact (enum_value_inj_of_retract RecordKind_retract)|].
  split; [intros k; destruct k; reflexivity|].
  split; [reflexivity|].
  repeat (split; [reflexivity|]).
  intros k; destruct k; vm_compute; discriminate.
Qed.

(** ** Fixed-width fields *)

Lemma fits_unsigned_spec (bits v : Z) :
  fits_unsigned bits v = true <-> 0 <= v < 2 ^ bits.
Proof.
  unfold fits_unsigned.
  rewrite andb_true_iff, Z.leb_le, Z.ltb_lt.
  tauto.
Qed.

Lemma BCFixed_emit_ok (w v : Z) :
  BCFixed_emit w v <> None <-> 0 <= v < 2 ^ w.
Proof.
  rewrite <- fits_unsigned_spec.
  unfold BCFixed_emit.
  destruct (fits_unsigned w v); split; intros Hx; congruence.
Qed.

Lemma zrange_length (lo : Z) (n : nat) : List.length (zrange lo n) = n.
Proof.
  revert lo; induction n as [|n IH]; intros lo; simpl; [reflexivity|].
  now rewrite IH.
Qed.

(** An emitted fixed-width field takes exactly its width in bits. *)
Lemma BCFixed_emit_length (w v : Z) (bits : list bool) :
  BCFixed_emit w v = Some bits -> List.length bits = Z.to_nat w.
Proof.
  unfold BCFixed_emit.
  destruct (fits_unsigned w v); [|discriminate].
  intros Hbits; inversion Hbits; subst.
  now rewrite length_map, zrange_length.
Qed.

Lemma Fixnum_range (Bits : Z) (x : Fixnum Bits) :
  0 <= Fixnum_value x < 2 ^ Bits.
Proof.
  destruct x as [v Hv]; simpl.
  now apply fits_unsigned_spec.
Qed.

Lemma Fixnum_emits (Bits : Z) (x : Fixnum Bits) :
  emit (BCFixed Bits) (Fixnum_value x) <> None.
Proof.
  simpl. apply BCFixed_emit_ok, Fixnum_range.
Qed.

(** C2: DeclID, TypeID and IdentifierID are 31-bit unsigned handles stored in
    [BCFixed<31>] fields; TypeID is an alias of DeclID and its field an alias
    of DeclID's field; BitOffset and its alias CharOffset are 31-bit unsigned
    values too.  Every value of each of these types is below 2^31 and is
    emitted by its field without an encoding error. *)
Theorem id_handles_are_31_bit :
  (DeclID = Fixnum 31 /\ DeclIDField = BCFixed 31)
  /\ (TypeID = DeclID /\ TypeIDField = DeclIDField)
  /\ (IdentifierID = Fixnum 31 /\ IdentifierIDField = BCFixed 31)
  /\ (BitOffset = Fixnum 31 /\ BitOffsetField = BCFixed 31)
  /\ (CharOffset = BitOffset /\ CharOffsetField = BitOffsetField)
  /\ (forall x : DeclID,
        0 <= Fixnum_value x < 2 ^ 31 /\ emit DeclIDField (Fixnum_value x) <> None)
  /\ (forall x : TypeID,
        0 <= Fixnum_value x < 2 ^ 31 /\ emit TypeIDField (Fixnum_value x) <> None)
  /\ (forall x : IdentifierID,
        0 <= Fixnum_value x < 2 ^ 31
        /\ emit IdentifierIDField (Fixnum_value x) <> None)
  /\ (forall x : BitOffset,
        0 <= Fixnum_value x < 2 ^ 31 /\ emit BitOffsetField (Fixnum_value x) <> None)
  /\ (forall x : CharOffset,
        0 <= Fixnum_value x < 2 ^ 31
        /\ emit CharOffsetField (Fixnum_value x) <> None).
Proof.
  repeat (split; [split; reflexivity|]).
  repeat split; try apply (Fixnum_range 31 x); apply (Fixnum_emits 31 x).
Qed.

(** C3: the container header is the four signature bytes E2 9C A8 0E and the
    control block's METADATA record, whose fields are a 16-bit major version,
    a 16-bit minor version and a trailing blob, in this order; the current
    version is major 1, minor 0, and both numbers fit their fields. *)
Theorem container_header :
  SIGNATURE = [226; 156; 168; 14]
  /\ List.length SIGNATURE = 4%nat
  /\ forallb (fits_unsigned 8) SIGNATURE = true
  /\ control_block.METADATA = 1
  /\ Code control_block.MetadataLayout = control_block.METADATA
  /\ Fields control_block.MetadataLayout = [BCFixed 16; BCFixed 16; BCBlob]
  /\ VERSION_MAJOR = 1
  /\ VERSION_MINOR = 0
  /\ emit (nth 0 (Fields control_block.MetadataLayout) BCBlob) VERSION_MAJOR <> None
  /\ emit (nth 1 (Fields control_block.MetadataLayout) BCBlob) VERSION_MINOR <> None.
Proof.
  repeat (split; [reflexivity|]).
  split; apply BCFixed_emit_ok; unfold VERSION_MAJOR, VERSION_MINOR; lia.
Qed.

(** C4: an XREF record carries a 2-bit reference kind, with the three values
    SwiftValue = 0, SwiftOperator = 1 and SwiftGenericParameter = 2, then one
    TypeID field, then a 1-bit within-extension flag, then an array of
    identifier IDs; nothing else. *)
Theorem xref_record_layout :
  Code decls_block.XRefLayout = 255
  /\ Fields decls_block.XRefLayout
     = [XRefKindField; TypeIDField; BCFixed 1; BCArray IdentifierIDField]
  /\ XRefKindField = BCFixed 2
  /\ TypeIDField = BCFixed 31
  /\ IdentifierIDField = BCFixed 31
  /\ enum_table (A := XRefKind.t)
     = [(XRefKind.SwiftValue, 0); (XRefKind.SwiftOperator, 1);
        (XRefKind.SwiftGenericParameter, 2)]
  /\ enum_value XRefKind.SwiftValue = 0
  /\ enum_value XRefKind.SwiftOperator = 1
  /\ enum_value XRefKind.SwiftGenericParameter = 2
  /\ (forall k : XRefKind.t,
        k = XRefKind.SwiftValue \/ k = XRefKind.SwiftOperator
        \/ k = XRefKind.SwiftGenericParameter)
  /\ (forall k : XRefKind.t, emit XRefKindField (enum_value k) <> None).
Proof.
  repeat (split; [reflexivity|]).
  split; intros k; destruct k; auto; vm_compute; discriminate.
Qed.

(** ** Enumerations and the fields that hold them *)

Ltac enum_cases a :=
  destruct a; vm_compute; repeat split; try discriminate; try reflexivity.

Ltac prove_paired :=
  unfold paired;
  split; [reflexivity|];
  split; [reflexivity|];
  split; [reflexivity|];
  let a := fresh "a" in intros a; enum_cases a.

(** C5: every enumeration that is stored in a fixed-width field has its
    largest value below 2^width, so every enumerator is emitted without an
    encoding error: AbstractCC (3) in 2 bits, XRefKind (2) in 2 bits,
    GenericRequirementKind (1) in 1 bit, Associativity (2) in 2 bits,
    Ownership (2) in 2 bits, DefaultArgumentKind (4) in 3 bits, LibraryKind
    (1) in 1 bit, KnownProtocolKind (15) in exactly 4 bits, and OperatorKind
    (2) in a TypeID field, which holds any value of OperatorKind's underlying
    8-bit type. *)
Theorem enums_fit_their_fields :
  paired AbstractCC.t AbstractCCField 2 3
  /\ paired XRefKind.t XRefKindField 2 2
  /\ paired GenericRequirementKind.t GenericRequirementKindField 1 1
  /\ paired Associativity.t AssociativityField 2 2
  /\ paired Ownership.t OwnershipField 2 2
  /\ paired DefaultArgumentKind.t DefaultArgumentField 3 4
  /\ paired LibraryKind.t LibraryKindField 1 1
  /\ paired index_block.KnownProtocolKind.t
       (IDField index_block.KnownProtocolLayout) 4 15
  /\ enum_max (A := index_block.KnownProtocolKind.t) = 2 ^ 4 - 1
  /\ paired OperatorKind.t TypeIDField 31 2
  /\ fits_underlying (A := OperatorKind.t) uint8_t_bits = true
  /\ (forall v : Z,
        fits_unsigned uint8_t_bits v = true -> emit TypeIDField v <> None).
Proof.
  repeat (split; [prove_paired|]).
  split; [reflexivity|].
  split; [prove_paired|].
  split; [reflexivity|].
  intros v Hv.
  apply fits_unsigned_spec in Hv.
  apply BCFixed_emit_ok.
  unfold uint8_t_bits in Hv.
  assert (2 ^ 8 < 2 ^ 31) by reflexivity.
  lia.
Qed.

(** C6: the index block has exactly seven record kinds: the offset tables
    TYPE_OFFSETS = 1, DECL_OFFSETS = 2 and IDENTIFIER_OFFSETS = 3 and the
    lookup tables TOP_LEVEL_DECLS = 4, OPERATORS = 5, EXTENSIONS = 6 and
    CLASS_MEMBERS = 7; each of them is emitted without an encoding error by
    the 3-bit record ID field of OffsetsLayout and of DeclListLayout, whose
    largest value is CLASS_MEMBERS = 7. *)
Theorem index_block_record_kinds :
  enum_table (A := index_block.RecordKind.t)
  = [(index_block.RecordKind.TYPE_OFFSETS, 1);
     (index_block.RecordKind.DECL_OFFSETS, 2);
     (index_block.RecordKind.IDENTIFIER_OFFSETS, 3);
     (index_block.RecordKind.TOP_LEVEL_DECLS, 4);
     (index_block.RecordKind.OPERATORS, 5);
     (index_block.RecordKind.EXTENSIONS, 6);
     (index_block.RecordKind.CLASS_MEMBERS, 7)]
  /\ List.length (enumerators (A := index_block.RecordKind.t)) = 7%nat
  /\ (forall k : index_block.RecordKind.t,
        In (k, enum_value k) (enum_table (A := index_block.RecordKind.t)))
  /\ (forall a b : index_block.RecordKind.t, enum_value a = enum_value b -> a = b)
  /\ IDField index_block.OffsetsLayout = BCFixed 3
  /\ IDField index_block.DeclListLayout = BCFixed 3
  /\ paired index_block.RecordKind.t (IDField index_block.OffsetsLayout) 3 7
  /\ paired index_block.RecordKind.t (IDField index_block.DeclListLayout) 3 7
  /\ enum_value index_block.RecordKind.CLASS_MEMBERS = 2 ^ 3 - 1.
Proof.
  split; [reflexivity|].
  split; [reflexivity|].
  split; [intros k; destruct k; vm_compute; tauto|].
  split.
  { apply enum_value_inj_of_retract. intros a; destruct a; reflexivity. }
  split; [reflexivity|].
  split; [reflexivity|].
  split; [prove_paired|].
  split; [prove_paired|].
  reflexivity.
Qed.

(** ** Block IDs *)

Lemma BlockID_all_complete (b : BlockID.t) : In b BlockID.all.
Proof. destruct b; simpl; tauto. Qed.

Lemma BlockID_values (first : Z) :
  map (BlockID.value first) BlockID.all
  = zrange first 5 ++ [64; 100].
Proof. reflexivity. Qed.

(** Two block IDs coincide exactly when the first application block ID puts
    one of the five consecutive IDs on 64 or on 100. *)
Lemma BlockID_collision_iff (first : Z) :
  (exists a b : BlockID.t, a <> b /\ BlockID.value first a = BlockID.value first b)
  <-> (60 <= first <= 64 \/ 96 <= first <= 100).
Proof.
  split.
  - intros (a & b & Hne & Heq).
    destruct a, b; cbn in Heq; try congruence; lia.
  - intros Hfirst.
    assert (Hcases : first = 60 \/ first = 61 \/ first = 62 \/ first = 63
                     \/ first = 64 \/ first = 96 \/ first = 97 \/ first = 98
                     \/ first = 99 \/ first = 100) by lia.
    destruct Hcases as [-> | [-> | [-> | [-> | [-> | [-> | [-> | [-> | [-> | ->]]]]]]]]].
    + exists BlockID.INDEX_BLOCK_ID, BlockID.KNOWN_PROTOCOL_BLOCK_ID.
      split; [discriminate | reflexivity].
    + exists BlockID.IDENTIFIER_DATA_BLOCK_ID, BlockID.KNOWN_PROTOCOL_BLOCK_ID.
      split; [discriminate | reflexivity].
    + exists BlockID.DECLS_AND_TYPES_BLOCK_ID, BlockID.KNOWN_PROTOCOL_BLOCK_ID.
      split; [discriminate | reflexivity].
    + exists BlockID.INPUT_BLOCK_ID, BlockID.KNOWN_PROTOCOL_BLOCK_ID.
      split; [discriminate | reflexivity].
    + exists BlockID.CONTROL_BLOCK_ID, BlockID.KNOWN_PROTOCOL_BLOCK_ID.
      split; [discriminate | reflexivity].
    + exists BlockID.INDEX_BLOCK_ID, BlockID.FALL_BACK_TO_TRANSLATION_UNIT_ID.
      split; [discriminate | reflexivity].
    + exists BlockID.IDENTIFIER_DATA_BLOCK_ID, BlockID.FALL_BACK_TO_TRANSLATION_UNIT_ID.
      split; [discriminate | reflexivity].
    + exists BlockID.DECLS_AND_TYPES_BLOCK_ID, BlockID.FALL_BACK_TO_TRANSLATION_UNIT_ID.
      split; [discriminate | reflexivity].
    + exists BlockID.INPUT_BLOCK_ID, BlockID.FALL_BACK_TO_TRANSLATION_UNIT_ID.
      split; [discriminate | reflexivity].
    + exists BlockID.CONTROL_BLOCK_ID, BlockID.FALL_BACK_TO_TRANSLATION_UNIT_ID.
      split; [discriminate | reflexivity].
Qed.

(** C7: the control, input, decls-and-types, identifier-data and index block
    IDs are consecutive from the first application block ID, the known
    protocol block ID is 64 and the fall-back marker block ID is 100.  With
    the first application block ID below 60 (LLVM's is 8) the seven IDs are
    pairwise distinct, and the fall-back marker differs from every other
    block ID. *)
Theorem block_ids_distinct (FIRST_APPLICATION_BLOCKID : Z) :
  (BlockID.value FIRST_APPLICATION_BLOCKID BlockID.CONTROL_BLOCK_ID
   = FIRST_APPLICATION_BLOCKID
   /\ BlockID.value FIRST_APPLICATION_BLOCKID BlockID.INPUT_BLOCK_ID
      = FIRST_APPLICATION_BLOCKID + 1
   /\ BlockID.value FIRST_APPLICATION_BLOCKID BlockID.DECLS_AND_TYPES_BLOCK_ID
      = FIRST_APPLICATION_BLOCKID + 2
   /\ BlockID.value FIRST_APPLICATION_BLOCKID BlockID.IDENTIFIER_DATA_BLOCK_ID
      = FIRST_APPLICATION_BLOCKID + 3
   /\ BlockID.value FIRST_APPLICATION_BLOCKID BlockID.INDEX_BLOCK_ID
      = FIRST_APPLICATION_BLOCKID + 4
   /\ BlockID.value FIRST_APPLICATION_BLOCKID BlockID.KNOWN_PROTOCOL_BLOCK_ID = 64
   /\ BlockID.value FIRST_APPLICATION_BLOCKID
        BlockID.FALL_BACK_TO_TRANSLATION_UNIT_ID = 100)
  /\ (FIRST_APPLICATION_BLOCKID < 60 ->
      (forall a b : BlockID.t,
         BlockID.value FIRST_APPLICATION_BLOCKID a
         = BlockID.value FIRST_APPLICATION_BLOCKID b -> a = b)
      /\ NoDup (map (BlockID.value FIRST_APPLICATION_BLOCKID) BlockID.all)
      /\ (forall b : BlockID.t,
            b <> BlockID.FALL_BACK_TO_TRANSLATION_UNIT_ID ->
            BlockID.value FIRST_APPLICATION_BLOCKID b
            <> BlockID.value FIRST_APPLICATION_BLOCKID
                 BlockID.FALL_BACK_TO_TRANSLATION_UNIT_ID)).
Proof.
  split.
  - cbn. repeat split; lia.
  - intros Hfirst.
    assert (Hinj : forall a b : BlockID.t,
               BlockID.value FIRST_APPLICATION_BLOCKID a
               = BlockID.value FIRST_APPLICATION_BLOCKID b -> a = b).
    { intros a b Heq.
      destruct a, b; cbn in Heq; try reflexivity; lia. }
    split; [exact Hinj|].
    split.
    + rewrite BlockID_values. simpl.
      repeat (constructor; [simpl; lia|]).
      constructor.
    + intros b Hb Heq. apply Hb, Hinj, Heq.
Qed.

(** With LLVM's first application block ID, 8, the block IDs are 8 to 12, 64
    and 100, pairwise distinct. *)
Lemma block_ids_distinct_llvm :
  map (BlockID.value 8) BlockID.all = [8; 9; 10; 11; 12; 64; 100]
  /\ NoDup (map (BlockID.value 8) BlockID.all).
Proof.
  split; [reflexivity|].
  destruct (block_ids_distinct 8) as [_ Hdistinct].
  destruct Hdistinct as [_ [Hnodup _]]; [lia|].
  exact Hnodup.
Defined.

(** ** The version gate *)

Section VersionGate.

Variable reader_major : Z.
Variable schema : Z -> Z -> option nat.
Variable forward_compatible : Z -> bool.

Local Abbreviation decodeRecord := (reader.decodeRecord schema).
Local Abbreviation decodeRecords := (reader.decodeRecords schema forward_compatible).
Local Abbreviation decodeBlocks := (reader.decodeBlocks schema forward_compatible).
Local Abbreviation load := (reader.load reader_major schema forward_compatible).
Local Abbreviation acceptable := (reader.acceptable schema forward_compatible).
Local Abbreviation strip_block := (reader.strip_block schema forward_compatible).
Local Abbreviation trim_block := (reader.trim_block schema).

Lemma snd_on_nodes (f : list reader.Node -> list reader.Node)
    (x : nat * (reader.LoadError + list reader.Node)) :
  snd (let (k, res) := x in (k, reader.on_nodes f res))
  = reader.on_nodes f (snd x).
Proof. now destruct x. Qed.

Lemma fst_on_nodes (f : list reader.Node -> list reader.Node)
    (x : nat * (reader.LoadError + list reader.Node)) :
  fst (let (k, res) := x in (k, reader.on_nodes f res)) = fst x.
Proof. now destruct x. Qed.

(** Every record that is looked at counts. *)
Lemma decodeRecords_attempts (b : Z) (n : nat) (rs : list reader.RawRecord) :
  (n <= fst (decodeRecords b n rs))%nat
  /\ (rs <> [] -> S n <= fst (decodeRecords b n rs))%nat.
Proof.
  revert n; induction rs as [|r rs IH]; intros n; simpl.
  - split; [lia | congruence].
  - destruct (IH (S n)) as [IHle _].
    assert (S n <= fst (match decodeRecord b r with
                        | reader.Known nd =>
                            let (k, res) := decodeRecords b (S n) rs in
                            (k, reader.on_nodes (cons nd) res)
                        | reader.UnknownTag =>
                            if forward_compatible b
                            then decodeRecords b (S n) rs
                            else (S n, inl reader.SchemaMismatchError)
                        | reader.Malformed => (S n, inl reader.CorruptionError)
                        end))%nat as Hle.
    { destruct (decodeRecord b r) as [nd| |].
      - rewrite fst_on_nodes. exact IHle.
      - destruct (forward_compatible b); simpl; [exact IHle | lia].
      - simpl. lia. }
    split; [lia | intros _; exact Hle].
Qed.

Lemma decodeBlocks_attempts (n : nat) (bs : list reader.Block) :
  (n <= fst (decodeBlocks n bs))%nat
  /\ (List.concat (map reader.block_records bs) <> [] ->
      S n <= fst (decodeBlocks n bs))%nat.
Proof.
  revert n; induction bs as [|b bs IH]; intros n; simpl.
  - split; [lia | congruence].
  - destruct (decodeRecords_attempts (reader.block_id b) n (reader.block_records b))
      as [Hle Hlt].
    destruct (decodeRecords (reader.block_id b) n (reader.block_records b))
      as [k [e|ns]] eqn:Hdec; simpl in *.
    + split; [exact Hle|].
      intros Hne. apply Hlt. intros Hnil. rewrite Hnil in Hdec.
      simpl in Hdec. discriminate.
    + destruct (IH k) as [IHle IHlt].
      rewrite fst_on_nodes.
      split; [lia|].
      intros Hne.
      destruct (reader.block_records b) as [|r rs] eqn:Hrs.
      * simpl in Hne. specialize (IHlt Hne).
        simpl in Hdec. inversion Hdec; subst. exact IHlt.
      * assert (S n <= k)%nat by (apply Hlt; discriminate). lia.
Qed.

Lemma decodeRecords_never_version_error (b : Z) (n : nat)
    (rs : list reader.RawRecord) :
  snd (decodeRecords b n rs) <> inl reader.FormatVersionError.
Proof.
  revert n; induction rs as [|r rs IH]; intros n; simpl; [discriminate|].
  destruct (decodeRecord b r) as [nd| |].
  - rewrite snd_on_nodes. specialize (IH (S n)).
    destruct (snd (decodeRecords b (S n) rs)); simpl; [exact IH | discriminate].
  - destruct (forward_compatible b); [apply IH | discriminate].
  - discriminate.
Qed.

Lemma decodeBlocks_never_version_error (n : nat) (bs : list reader.Block) :
  snd (decodeBlocks n bs) <> inl reader.FormatVersionError.
Proof.
  revert n; induction bs as [|b bs IH]; intros n; simpl; [discriminate|].
  pose proof (decodeRecords_never_version_error
                (reader.block_id b) n (reader.block_records b)) as Hrec.
  destruct (decodeRecords (reader.block_id b) n (reader.block_records b))
    as [k [e|ns]]; simpl in *; [exact Hrec|].
  rewrite snd_on_nodes. specialize (IH k).
  destruct (snd (decodeBlocks k bs)); simpl; [exact IH | discriminate].
Qed.

(** What is decoded does not depend on how many records were looked at
    before. *)
Lemma decodeRecords_result (b : Z) (n m : nat) (rs : list reader.RawRecord) :
  snd (decodeRecords b n rs) = snd (decodeRecords b m rs).
Proof.
  revert n m; induction rs as [|r rs IH]; intros n m; simpl; [reflexivity|].
  destruct (decodeRecord b r) as [nd| |].
  - rewrite !snd_on_nodes. now rewrite (IH (S n) (S m)).
  - destruct (forward_compatible b); [apply IH | reflexivity].
  - reflexivity.
Qed.

Lemma decodeBlocks_result (n m : nat) (bs : list reader.Block) :
  snd (decodeBlocks n bs) = snd (decodeBlocks m bs).
Proof.
  revert n m; induction bs as [|b bs IH]; intros n m; simpl; [reflexivity|].
  pose proof (decodeRecords_result (reader.block_id b) n m (reader.block_records b))
    as Hrec.
  destruct (decodeRecords (reader.block_id b) n (reader.block_records b))
    as [k [e|ns]];
    destruct (decodeRecords (reader.block_id b) m (reader.block_records b))
      as [k' [e'|ns']]; simpl in Hrec; try discriminate Hrec.
  - exact Hrec.
  - inversion Hrec; subst ns'.
    rewrite !snd_on_nodes. now rewrite (IH k k').
Qed.

(** Records of unknown tag in a forward compatible block leave no trace in
    what is decoded. *)
Lemma decodeRecords_strip (b : reader.Block) (n m : nat) :
  snd (decodeRecords (reader.block_id b) n (reader.block_records b))
  = snd (decodeRecords (reader.block_id b) m
           (reader.block_records (strip_block b))).
Proof.
  unfold reader.strip_block; simpl.
  destruct (forward_compatible (reader.block_id b)) eqn:Hfc;
    [|apply decodeRecords_result].
  generalize (reader.block_records b) as rs.
  intros rs; revert n m.
  induction rs as [|r rs IH]; intros n m; simpl; [reflexivity|].
  unfold reader.is_unknown.
  destruct (decodeRecord (reader.block_id b) r) as [nd| |] eqn:Hr; simpl.
  - rewrite Hr. rewrite !snd_on_nodes. now rewrite (IH (S n) (S m)).
  - rewrite Hfc. apply IH.
  - rewrite Hr. reflexivity.
Qed.

Lemma decodeBlocks_strip (n m : nat) (bs : list reader.Block) :
  snd (decodeBlocks n bs) = snd (decodeBlocks m (map strip_block bs)).
Proof.
  revert n m; induction bs as [|b bs IH]; intros n m; [reflexivity|].
  cbn [map reader.decodeBlocks].
  change (reader.block_id (strip_block b)) with (reader.block_id b).
  pose proof (decodeRecords_strip b n m) as Hrec.
  destruct (decodeRecords (reader.block_id b) n (reader.block_records b))
    as [k [e|ns]];
    destruct (decodeRecords (reader.block_id b) m
                (reader.block_records (strip_block b)))
      as [k' [e'|ns']]; simpl in Hrec; try discriminate Hrec.
  - exact Hrec.
  - inversion Hrec; subst ns'.
    rewrite !snd_on_nodes. now rewrite (IH k k').
Qed.

(** Operands after the fields of a record's tag are not looked at. *)
Lemma decodeRecord_trim (b : Z) (r : reader.RawRecord) :
  decodeRecord b (reader.trim_record schema b r) = decodeRecord b r.
Proof.
  unfold reader.trim_record, reader.decodeRecord.
  destruct (schema b (reader.record_code r)) as [n|] eqn:Hn; simpl;
    [|now rewrite Hn].
  rewrite Hn.
  destruct (Nat.leb_spec n (List.length (reader.record_operands r))) as [Hle|Hgt].
  - rewrite length_firstn, Nat.min_l by exact Hle.
    rewrite Nat.leb_refl.
    rewrite firstn_firstn, Nat.min_id. reflexivity.
  - rewrite firstn_all2 by lia.
    destruct (Nat.leb_spec n (List.length (reader.record_operands r)));
      [lia | reflexivity].
Qed.

Lemma decodeRecords_trim (b : Z) (n : nat) (rs : list reader.RawRecord) :
  decodeRecords b n (map (reader.trim_record schema b) rs) = decodeRecords b n rs.
Proof.
  revert n; induction rs as [|r rs IH]; intros n; simpl; [reflexivity|].
  rewrite decodeRecord_trim.
  destruct (decodeRecord b r) as [nd| |]; try reflexivity.
  - now rewrite IH.
  - destruct (forward_compatible b); [apply IH | reflexivity].
Qed.

Lemma decodeBlocks_trim (n : nat) (bs : list reader.Block) :
  decodeBlocks n (map trim_block bs) = decodeBlocks n bs.
Proof.
  revert n; induction bs as [|b bs IH]; intros n; simpl; [reflexivity|].
  rewrite decodeRecords_trim.
  destruct (decodeRecords (reader.block_id b) n (reader.block_records b))
    as [k [e|ns]]; [reflexivity|].
  now rewrite IH.
Qed.

(** A block of acceptable records decodes to the end. *)
Lemma decodeRecords_all (b : Z) (n : nat) (rs : list reader.RawRecord) :
  forallb (acceptable b) rs = true ->
  exists nodes : list reader.Node,
    decodeRecords b n rs = ((n + List.length rs)%nat, inr nodes).
Proof.
  revert n; induction rs as [|r rs IH]; intros n Hall; simpl.
  - exists []. f_equal. lia.
  - simpl in Hall. apply andb_true_iff in Hall as [Hr Hrs].
    destruct (IH (S n) Hrs) as [nodes Hdec].
    unfold reader.acceptable in Hr.
    destruct (decodeRecord b r) as [nd| |]; [| |discriminate].
    + rewrite Hdec. exists (nd :: nodes). simpl. f_equal. lia.
    + rewrite Hr, Hdec. exists nodes. f_equal. lia.
Qed.

Lemma decodeBlocks_all (n : nat) (bs : list reader.Block) :
  forallb (fun b => forallb (acceptable (reader.block_id b)) (reader.block_records b))
    bs = true ->
  exists nodes : list reader.Node,
    decodeBlocks n bs
    = ((n + List.length (List.concat (map reader.block_records bs)))%nat, inr nodes).
Proof.
  revert n; induction bs as [|b bs IH]; intros n Hall; simpl.
  - exists []. f_equal. lia.
  - simpl in Hall. apply andb_true_iff in Hall as [Hb Hbs].
    destruct (decodeRecords_all (reader.block_id b) n (reader.block_records b) Hb)
      as [ns Hdec].
    rewrite Hdec.
    destruct (IH (n + List.length (reader.block_records b))%nat Hbs) as [ns' Hdec'].
    rewrite Hdec'. exists (ns ++ ns'). simpl.
    rewrite length_app. f_equal. lia.
Qed.

End VersionGate.



(** ** Helpers that switch on a declaration kind *)

Lemma operator_kinds_dec (kind : DeclKind.t) :
  {In kind operator_kinds} + {~ In kind operator_kinds}.
Proof.
  destruct kind; simpl;
    first [ left; tauto | right; intuition discriminate ].
Defined.

Lemma table_kinds_dec (kind : DeclKind.t) :
  {In kind table_kinds} + {~ In kind table_kinds}.
Proof.
  destruct kind; simpl;
    first [ left; tauto | right; intuition discriminate ].
Defined.

(** C9: getStableFixity sends InfixOperator to Infix (0), PrefixOperator to
    Prefix (1) and PostfixOperator to Postfix (2), no two kinds to the same
    fixity; on these three kinds it returns, and on every other declaration
    kind it runs into its unreachable branch. *)
Theorem getStableFixity_operators :
  (getStableFixity DeclKind.InfixOperator = Returns OperatorKind.Infix
   /\ getStableFixity DeclKind.PrefixOperator = Returns OperatorKind.Prefix
   /\ getStableFixity DeclKind.PostfixOperator = Returns OperatorKind.Postfix)
  /\ (reach_map enum_value (getStableFixity DeclKind.InfixOperator) = Returns 0
      /\ reach_map enum_value (getStableFixity DeclKind.PrefixOperator) = Returns 1
      /\ reach_map enum_value (getStableFixity DeclKind.PostfixOperator) = Returns 2)
  /\ (forall (k1 k2 : DeclKind.t) (f : OperatorKind.t),
        getStableFixity k1 = Returns f -> getStableFixity k2 = Returns f -> k1 = k2)
  /\ (forall kind : DeclKind.t,
        In kind operator_kinds -> returns (getStableFixity kind) = true)
  /\ (forall kind : DeclKind.t,
        ~ In kind operator_kinds ->
        getStableFixity kind = llvm_unreachable "unknown operator fixity").
Proof.
  split; [repeat split|].
  split; [repeat split|].
  split.
  { intros k1 k2 f H1 H2.
    destruct k1; simpl in H1; try discriminate;
      destruct k2; simpl in H2; try discriminate;
      try reflexivity; congruence. }
  split.
  - intros kind Hin. simpl in Hin.
    destruct Hin as [<- | [<- | [<- | []]]]; reflexivity.
  - intros kind Hout.
    destruct kind; try reflexivity; exfalso; apply Hout; simpl; tauto.
Qed.

(** An infix operator declaration has a stable fixity; a function declaration
    has none. *)
Lemma getStableFixity_operators_at :
  returns (getStableFixity DeclKind.InfixOperator) = true
  /\ getStableFixity DeclKind.Func = llvm_unreachable "unknown operator fixity".
Proof.
  destruct getStableFixity_operators as (_ & _ & _ & Hin & Hout).
  split.
  - apply Hin. simpl. tauto.
  - apply Hout. simpl. intuition discriminate.
Defined.

(** C10: getKindForTable returns on exactly the ten declaration kinds
    TypeAlias, Union, Struct, Class, Protocol, Func, Var, Subscript,
    Constructor and Destructor, giving the record tag of the same name; every
    other declaration kind, operator and extension declarations among them,
    runs into its unreachable branch. *)
Theorem getKindForTable_domain :
  (getKindForTable {| getKind := DeclKind.TypeAlias |}
   = Returns decls_block.RecordKind.TYPE_ALIAS_DECL
   /\ getKindForTable {| getKind := DeclKind.Union |}
      = Returns decls_block.RecordKind.UNION_DECL
   /\ getKindForTable {| getKind := DeclKind.Struct |}
      = Returns decls_block.RecordKind.STRUCT_DECL
   /\ getKindForTable {| getKind := DeclKind.Class |}
      = Returns decls_block.RecordKind.CLASS_DECL
   /\ getKindForTable {| getKind := DeclKind.Protocol |}
      = Returns decls_block.RecordKind.PROTOCOL_DECL
   /\ getKindForTable {| getKind := DeclKind.Func |}
      = Returns decls_block.RecordKind.FUNC_DECL
   /\ getKindForTable {| getKind := DeclKind.Var |}
      = Returns decls_block.RecordKind.VAR_DECL
   /\ getKindForTable {| getKind := DeclKind.Subscript |}
      = Returns decls_block.RecordKind.SUBSCRIPT_DECL
   /\ getKindForTable {| getKind := DeclKind.Constructor |}
      = Returns decls_block.RecordKind.CONSTRUCTOR_DECL
   /\ getKindForTable {| getKind := DeclKind.Destructor |}
      = Returns decls_block.RecordKind.DESTRUCTOR_DECL)
  /\ (List.length table_kinds = 10%nat /\ NoDup table_kinds)
  /\ (forall D : Decl,
        In (getKind D) table_kinds -> returns (getKindForTable D) = true)
  /\ (forall D : Decl,
        ~ In (getKind D) table_kinds ->
        getKindForTable D
        = llvm_unreachable "cannot store this kind of decl in a hash table")
  /\ (forall D : Decl,
        In (getKind D) (DeclKind.Extension :: operator_kinds) ->
        returns (getKindForTable D) = false).
Proof.
  split; [repeat split|].
  split.
  { split; [reflexivity|].
    unfold table_kinds.
    repeat (constructor; [simpl; intuition discriminate|]).
    constructor. }
  split.
  { intros [kind] Hin. simpl in Hin. unfold getKindForTable. simpl.
    repeat (destruct Hin as [<- | Hin]; [reflexivity|]).
    destruct Hin. }
  split.
  - intros [kind] Hout. unfold getKindForTable. simpl in *.
    destruct kind; try reflexivity; exfalso; apply Hout; tauto.
  - intros [kind] Hin. unfold getKindForTable. simpl in *.
    repeat (destruct Hin as [<- | Hin]; [reflexivity|]).
    destruct Hin.
Qed.

(** A struct declaration is stored under STRUCT_DECL, tag 103; an extension
    declaration cannot be stored in a hash table. *)
Lemma getKindForTable_domain_at :
  returns (getKindForTable {| getKind := DeclKind.Struct |}) = true
  /\ reach_map enum_value (getKindForTable {| getKind := DeclKind.Struct |})
     = Returns 103
  /\ getKindForTable {| getKind := DeclKind.Extension |}
     = llvm_unreachable "cannot store this kind of decl in a hash table".
Proof.
  destruct getKindForTable_domain as (_ & _ & Hin & Hout & _).
  split; [|split].
  - apply Hin. simpl. tauto.
  - reflexivity.
  - apply Hout. simpl. intuition discriminate.
Defined.

(** ** The record layouts as a whole *)

Lemma nodupb_sound (l : list Z) : nodupb l = true -> NoDup l.
Proof.
  induction l as [|x l IH]; simpl; intros Hl; [constructor|].
  apply andb_true_iff in Hl as [Hx Hrest].
  constructor; [|now apply IH].
  intros Hin.
  apply negb_true_iff in Hx.
  assert (Hex : existsb (Z.eqb x) l = true).
  { apply existsb_exists. exists x. split; [exact Hin | apply Z.eqb_refl]. }
  congruence.
Qed.

Lemma trailing_ok_spec (fs : list BCField) :
  trailing_ok fs = true ->
  forall (i : nat) (f : BCField),
    nth_error fs i = Some f ->
    match f with
    | BCFixed _ | BCVBR _ => True
    | BCArray e => S i = List.length fs /\ is_scalar e = true
    | BCBlob => S i = List.length fs
    end.
Proof.
  induction fs as [|g fs IH]; intros Hok i f Hnth.
  - destruct i; discriminate.
  - destruct i as [|i]; simpl in Hnth.
    + inversion Hnth; subst g; clear Hnth.
      destruct f as [w|w|e|]; simpl in Hok; try exact I.
      * apply andb_true_iff in Hok as [He Hnil].
        destruct fs; [split; [reflexivity | exact He] | discriminate].
      * destruct fs; [reflexivity | discriminate].
    + assert (Hfs : trailing_ok fs = true /\ fs <> []).
      { destruct g as [w|w|e|]; simpl in Hok.
        - split; [exact Hok|]. intros ->. destruct i; discriminate.
        - split; [exact Hok|]. intros ->. destruct i; discriminate.
        - apply andb_true_iff in Hok as [_ Hnil].
          destruct fs; [destruct i; discriminate | discriminate].
        - destruct fs; [destruct i; discriminate | discriminate]. }
      destruct Hfs as [Hfs _].
      specialize (IH Hfs i f Hnth).
      destruct f; simpl; try exact I.
      * destruct IH as [Hlen He]. split; [now f_equal | exact He].
      * now f_equal.
Qed.

Lemma RecordKind_unretract (v : Z) (k : decls_block.RecordKind.t) :
  enum_of_value v = Some k -> enum_value k = v.
Proof.
  unfold enum_of_value.
  destruct (find (fun p => snd p =? v) enum_table) as [p|] eqn:Hfind;
    [|discriminate].
  intros Hk; inversion Hk; subst k; clear Hk.
  apply find_some in Hfind as [Hin Hv].
  apply Z.eqb_eq in Hv. subst v.
  vm_compute in Hin.
  repeat (destruct Hin as [<- | Hin]; [reflexivity|]).
  destruct Hin.
Qed.

(** Every record kind of the decls-and-types block has exactly one layout in
    the block, except KNOWN_PROTOCOL, which has none there; and every layout
    of the block carries the tag of a record kind.  The block has sixty
    layouts for sixty-one record kinds. *)
Theorem one_layout_per_record_kind :
  (forall k : decls_block.RecordKind.t,
     List.length (layouts_of k)
     = if decls_block.RecordKind.t_beq k decls_block.RecordKind.KNOWN_PROTOCOL
       then 0%nat else 1%nat)
  /\ (forall L : BCRecordLayout,
        In L decls_block.layouts ->
        exists k : decls_block.RecordKind.t,
          Code L = enum_value k /\ k <> decls_block.RecordKind.KNOWN_PROTOCOL)
  /\ List.length decls_block.layouts = 60%nat
  /\ List.length (enumerators (A := decls_block.RecordKind.t)) = 61%nat.
Proof.
  split; [intros k; destruct k; reflexivity|].
  split; [|split; reflexivity].
  intros L HL.
  assert (Hall : forallb
            (fun L => match enum_of_value (A := decls_block.RecordKind.t) (Code L) with
                      | Some k => negb (decls_block.RecordKind.t_beq k
                                          decls_block.RecordKind.KNOWN_PROTOCOL)
                      | None => false
                      end) decls_block.layouts = true) by (vm_compute; reflexivity).
  rewrite forallb_forall in Hall.
  specialize (Hall L HL).
  destruct (enum_of_value (A := decls_block.RecordKind.t) (Code L)) as [k|] eqn:Hk;
    [|discriminate].
  exists k. split.
  - symmetry. now apply RecordKind_unretract.
  - intros ->. discriminate.
Qed.

(** The PAREN_TYPE tag has the one layout ParenTypeLayout. *)
Lemma one_layout_per_record_kind_at :
  layouts_of decls_block.RecordKind.PAREN_TYPE = [decls_block.ParenTypeLayout]
  /\ exists k : decls_block.RecordKind.t,
       Code decls_block.XRefLayout = enum_value k
       /\ k <> decls_block.RecordKind.KNOWN_PROTOCOL.
Proof.
  split; [reflexivity|].
  destruct one_layout_per_record_kind as (_ & Hkind & _).
  apply Hkind.
  unfold decls_block.layouts.
  repeat (try (left; reflexivity); right).
Defined.

(** Within each block the record codes of the layouts are pairwise distinct,
    are never zero and fit eight bits; across blocks they are reused: every
    block with layouts of its own has one with record code 1. *)
Theorem record_codes_within_blocks :
  (forall b : BlockID.t, NoDup (map Code (block_layouts b)))
  /\ (forall (b : BlockID.t) (L : BCRecordLayout),
        In L (block_layouts b) ->
        Code L <> 0 /\ fits_unsigned uint8_t_bits (Code L) = true)
  /\ (forall b : BlockID.t,
        block_layouts b <> [] ->
        exists L : BCRecordLayout, In L (block_layouts b) /\ Code L = 1).
Proof.
  split; [intros b; apply nodupb_sound; destruct b; vm_compute; reflexivity|].
  split.
  - intros b L HL.
    assert (Hall : forallb (fun L => negb (Code L =? 0)
                                     && fits_unsigned uint8_t_bits (Code L))
                     (block_layouts b) = true)
      by (destruct b; vm_compute; reflexivity).
    rewrite forallb_forall in Hall.
    specialize (Hall L HL).
    apply andb_true_iff in Hall as [Hnz Hfit].
    split; [|exact Hfit].
    apply negb_true_iff, Z.eqb_neq in Hnz. exact Hnz.
  - intros b Hb.
    destruct b; simpl in *; try congruence;
      eexists; (split; [left; reflexivity | reflexivity]).
Qed.

(** The input block has three layouts, with record codes 1, 2 and 3. *)
Lemma record_codes_within_blocks_at :
  map Code (block_layouts BlockID.INPUT_BLOCK_ID) = [1; 2; 3]
  /\ exists L : BCRecordLayout,
       In L (block_layouts BlockID.INPUT_BLOCK_ID) /\ Code L = 1.
Proof.
  split; [reflexivity|].
  destruct record_codes_within_blocks as (_ & _ & Hone).
  apply Hone. simpl. discriminate.
Defined.

(** In every layout of the header an array or a blob is the last field, and
    an array holds scalar fields; every other field is a fixed-width or VBR
    field. *)
Theorem variable_length_fields_are_last (fs : list BCField) (i : nat) (f : BCField) :
  In fs field_lists ->
  nth_error fs i = Some f ->
  match f with
  | BCFixed _ | BCVBR _ => True
  | BCArray e => S i = List.length fs /\ is_scalar e = true
  | BCBlob => S i = List.length fs
  end.
Proof.
  intros Hfs Hnth.
  assert (Hall : forallb trailing_ok field_lists = true) by (vm_compute; reflexivity).
  rewrite forallb_forall in Hall.
  exact (trailing_ok_spec fs (Hall fs Hfs) i f Hnth).
Qed.

(** The blob of FuncLayout, its eleventh field, is its last. *)
Lemma variable_length_fields_are_last_at :
  S 10 = List.length (Fields decls_block.FuncLayout).
Proof.
  apply (variable_length_fields_are_last (Fields decls_block.FuncLayout) 10 BCBlob).
  - unfold field_lists. apply in_or_app. left.
    apply in_map.
    apply in_concat. exists (block_layouts BlockID.DECLS_AND_TYPES_BLOCK_ID).
    split.
    + apply in_map. simpl. tauto.
    + simpl. unfold decls_block.layouts.
      repeat (try (left; reflexivity); right).
  - reflexivity.
Defined.

(** Every fixed-width field of every layout is between 1 and 31 bits wide,
    every VBR field between 4 and 16 bits, and every array is an array of
    31-bit fields (IDs or offsets). *)
Theorem field_widths_bounded (fs : list BCField) (f : BCField) :
  In fs field_lists ->
  In f fs ->
  match f with
  | BCFixed w => 1 <= w <= 31
  | BCVBR w => 4 <= w <= 16
  | BCArray e => e = BCFixed 31
  | BCBlob => True
  end.
Proof.
  intros Hfs Hf.
  assert (Hall : forallb (forallb width_ok) field_lists = true)
    by (vm_compute; reflexivity).
  rewrite forallb_forall in Hall.
  specialize (Hall fs Hfs).
  rewrite forallb_forall in Hall.
  specialize (Hall f Hf).
  destruct f as [w|w|e|]; simpl in Hall; try exact I.
  - apply andb_true_iff in Hall as [Hlo Hhi].
    apply Z.leb_le in Hlo, Hhi. lia.
  - apply andb_true_iff in Hall as [Hlo Hhi].
    apply Z.leb_le in Hlo, Hhi. lia.
  - destruct e as [w|w|e|]; try discriminate.
    apply Z.eqb_eq in Hall. now subst w.
Qed.

(** The table offset of DeclListLayout is the widest VBR field, 16 bits. *)
Lemma field_widths_bounded_at : 4 <= 16 <= 16.
Proof.
  apply (field_widths_bounded
           (IDField index_block.DeclListLayout
            :: GenericFields index_block.DeclListLayout) (BCVBR 16)).
  - unfold field_lists. apply in_or_app. right. simpl. tauto.
  - simpl. tauto.
Defined.

(** ** The hash table kind of a declaration *)

(** The record kind getKindForTable returns tells the declaration kinds
    apart: two declarations stored under record kinds of the same tag have
    the same declaration kind. *)
Theorem getKindForTable_tag_identifies_kind
    (D1 D2 : Decl) (k1 k2 : decls_block.RecordKind.t) :
  getKindForTable D1 = Returns k1 ->
  getKindForTable D2 = Returns k2 ->
  enum_value k1 = enum_value k2 ->
  getKind D1 = getKind D2.
Proof.
  destruct D1 as [kind1], D2 as [kind2].
  unfold getKindForTable; simpl.
  intros H1 H2 Htag.
  destruct kind1; try discriminate H1; inversion H1; subst k1; clear H1;
    destruct kind2; try discriminate H2; inversion H2; subst k2; clear H2;
    try reflexivity; vm_compute in Htag; discriminate Htag.
Qed.

(** Two class declarations are stored under the same tag. *)
Lemma getKindForTable_tag_identifies_kind_at :
  getKind {| getKind := DeclKind.Class |} = getKind {| getKind := DeclKind.Class |}.
Proof.
  apply (getKindForTable_tag_identifies_kind
           {| getKind := DeclKind.Class |} {| getKind := DeclKind.Class |}
           decls_block.RecordKind.CLASS_DECL decls_block.RecordKind.CLASS_DECL);
    reflexivity.
Defined.

(** Whatever record kind getKindForTable returns is a declaration record, its
    tag between 100 and 117, and has exactly one layout in the
    decls-and-types block. *)
Theorem getKindForTable_tag_has_layout (D : Decl) (k : decls_block.RecordKind.t) :
  getKindForTable D = Returns k ->
  100 <= enum_value k <= 117
  /\ exists L : BCRecordLayout, layouts_of k = [L] /\ Code L = enum_value k.
Proof.
  destruct D as [kind].
  unfold getKindForTable; simpl.
  intros Hk.
  destruct kind; try discriminate Hk; inversion Hk; subst k; clear Hk;
    (split; [vm_compute; split; discriminate
            | eexists; split; [reflexivity | reflexivity]]).
Qed.

(** A destructor declaration is stored under tag 117, the layout of which is
    DestructorLayout. *)
Lemma getKindForTable_tag_has_layout_at :
  100 <= 117 <= 117
  /\ exists L : BCRecordLayout,
       layouts_of decls_block.RecordKind.DESTRUCTOR_DECL = [L]
       /\ Code L = 117.
Proof.
  apply (getKindForTable_tag_has_layout {| getKind := DeclKind.Destructor |}
           decls_block.RecordKind.DESTRUCTOR_DECL).
  reflexivity.
Defined.

(** ** Converting integers to enumerators *)

Lemma stable_of_retract (A : Type) `{CEnum A} :
  (forall a : A, enum_of_value (enum_value a) = Some a) ->
  (forall a : A, fits_unsigned uint8_t_bits (enum_value a) = true) ->
  stable A.
Proof.
  intros Hret Hfit.
  split; [exact (enum_value_inj_of_retract Hret)|].
  split; [exact Hfit|].
  intros a k.
  unfold enum_cast.
  rewrite Z.mul_comm, Z_mod_plus_full.
  rewrite Z.mod_small by (apply fits_unsigned_spec, Hfit).
  apply Hret.
Qed.

Ltac prove_stable :=
  apply stable_of_retract;
  let a := fresh "a" in intros a; destruct a; reflexivity.

(** In each enumeration of the format with underlying type uint8_t no two
    enumerators share a value, every value is below 256, and an integer
    converts to an enumerator whenever it is that enumerator's value modulo
    256: a stored value is read back as the enumerator it was taken from. *)
Theorem enumerations_are_stable :
  stable AbstractCC.t
  /\ stable XRefKind.t
  /\ stable OperatorKind.t
  /\ stable GenericRequirementKind.t
  /\ stable Associativity.t
  /\ stable Ownership.t
  /\ stable DefaultArgumentKind.t
  /\ stable LibraryKind.t
  /\ stable decls_block.RecordKind.t
  /\ stable index_block.KnownProtocolKind.t.
Proof.
  repeat (split; [prove_stable|]).
  prove_stable.
Qed.

(** 257 converts to NAME_ALIAS_TYPE, whose value is 1. *)
Lemma enumerations_are_stable_at :
  enum_cast uint8_t_bits 257 = Some decls_block.RecordKind.NAME_ALIAS_TYPE.
Proof.
  destruct enumerations_are_stable as (_ & _ & _ & _ & _ & _ & _ & _ & Hkind & _).
  destruct Hkind as (_ & _ & Hcast).
  exact (Hcast decls_block.RecordKind.NAME_ALIAS_TYPE 1).
Defined.

Ltac prove_unused :=
  let v := fresh "v" in
  let Hv := fresh "Hv" in
  intros v Hv;
  let Hcases := fresh "Hcases" in
  assert (Hcases : In v (zrange 0 16)) by (simpl; lia);
  simpl in Hcases;
  repeat (destruct Hcases as [<- | Hcases];
          [vm_compute; intuition (discriminate || auto)|]);
  destruct Hcases.

(** Which values of a field are no enumerator.  Every value of the 2-bit
    calling convention field, of the 1-bit requirement kind and library kind
    fields and of the 4-bit known protocol field is an enumerator.  The 2-bit
    fields of XRefKind, Associativity and Ownership leave 3 unused, the 3-bit
    default argument field leaves 5, 6 and 7 unused, and the 3-bit record ID
    of the index block leaves 0 unused. *)
Theorem unused_field_values :
  unused_exactly AbstractCC.t 2 []
  /\ unused_exactly XRefKind.t 2 [3]
  /\ unused_exactly GenericRequirementKind.t 1 []
  /\ unused_exactly Associativity.t 2 [3]
  /\ unused_exactly Ownership.t 2 [3]
  /\ unused_exactly DefaultArgumentKind.t 3 [5; 6; 7]
  /\ unused_exactly LibraryKind.t 1 []
  /\ unused_exactly index_block.KnownProtocolKind.t 4 []
  /\ unused_exactly index_block.RecordKind.t 3 [0].
Proof.
  repeat (split; [prove_unused|]).
  prove_unused.
Qed.

(** Value 3 of the reference kind field of an XREF record is no XRefKind. *)
Lemma unused_field_values_at :
  enum_of_value (A := XRefKind.t) 3 = None.
Proof.
  destruct unused_field_values as (_ & Hxref & _).
  apply (Hxref 3); [split; [discriminate | reflexivity] | simpl; tauto].
Defined.

(** ** Block IDs and LLVM's reserved range *)

(** With the first application block ID at most 64, no block ID of the
    format is below it: none falls into the range LLVM keeps for its own
    blocks, and none is above 100. *)
Theorem block_ids_are_application_ids (FIRST_APPLICATION_BLOCKID : Z) (b : BlockID.t) :
  FIRST_APPLICATION_BLOCKID <= 64 ->
  FIRST_APPLICATION_BLOCKID <= BlockID.value FIRST_APPLICATION_BLOCKID b <= 100.
Proof.
  intros Hfirst.
  destruct b; cbn; lia.
Qed.

(** With LLVM's first application block ID, 8, the index block's ID is
    between 8 and 100. *)
Lemma block_ids_are_application_ids_at :
  8 <= BlockID.value 8 BlockID.INDEX_BLOCK_ID <= 100.
Proof.
  apply (block_ids_are_application_ids 8 BlockID.INDEX_BLOCK_ID).
  discriminate.
Defined.
